(** * PdfToolkit: a shallow embedding of the job-backed PDF pipeline

    The development follows the Python sources:
    - [services/pdf_processor.py]  (the engine: merge, split, compress),
    - [utils/validators.py]        (file and parameter validators),
    - [routes/api.py]              (the orchestrator and the job status query),
    - [models.py]                  (the [ProcessingJob] row).

    Python exceptions are modelled by an explicit [outcome] monad, the two
    zones of the file store by finite maps, the job ledger by a finite map
    from ids to rows, and the clock by an explicit [datetime] argument. *)

From Stdlib Require Import ZArith String Ascii List Bool Lia.
From Stdlib Require Import Floats Uint63.
From stdpp Require Import base gmap strings list fin_maps pretty.

Local Open Scope string_scope.
Local Open Scope Z_scope.
Local Open Scope list_scope.

(** ** Python exceptions and outcomes *)

Module Py.

(** The exception classes that occur in the modelled code.  All of them are
    subclasses of Python's [Exception]; in particular werkzeug's
    [HTTPException] (raised by [abort] and by [get_or_404]) is one.
    What is raised outside that hierarchy ([KeyboardInterrupt],
    [SystemExit]) ends the process and has no place here. *)
Inductive exn_class :=
  | FileNotFoundError
  | PdfReadError
  | IndexError
  | TypeError
  | AttributeError
  | KeyError
  | ValueError
  | ZeroDivisionError
  | OSError
  | HTTPException (code : Z).

Record exn := Exn { exn_cls : exn_class; exn_msg : string }.

(** [str(e)] *)
Definition str (e : exn) : string := exn_msg e.

Inductive outcome (A : Type) :=
  | Return (a : A)
  | Raise (e : exn).
Arguments Return {A} a.
Arguments Raise {A} e.

Definition bind {A B} (m : outcome A) (k : A -> outcome B) : outcome B :=
  match m with
  | Return a => k a
  | Raise e => Raise e
  end.

(** [try: body  except Exception as e: handler e] *)
Definition try_except {A} (body : outcome A) (handler : exn -> outcome A)
  : outcome A :=
  match body with
  | Return a => Return a
  | Raise e => handler e
  end.

End Py.
Export Py.

Notation "'let!' x ':=' m 'in' k" := (Py.bind m (fun x => k))
  (at level 10, x name, m at level 100, k at level 200,
   format "'[v' 'let!'  x  ':='  m  'in' '/' k ']'").

(** ** Strings *)

Module Str.

Fixpoint contains_from (fuel : nat) (needle hay : string) : bool :=
  if String.prefix needle hay then true
  else match fuel, hay with
       | S n, String _ rest => contains_from n needle rest
       | _, _ => false
       end.

(** [needle in hay] for Python strings. *)
Definition contains (needle hay : string) : bool :=
  contains_from (String.length hay) needle hay.

Definition lower_ascii (c : ascii) : ascii :=
  let n := nat_of_ascii c in
  if ((65 <=? n)%nat && (n <=? 90)%nat)%bool then ascii_of_nat (n + 32) else c.

Definition upper_ascii (c : ascii) : ascii :=
  let n := nat_of_ascii c in
  if ((97 <=? n)%nat && (n <=? 122)%nat)%bool then ascii_of_nat (n - 32) else c.

Fixpoint map_string (f : ascii -> ascii) (s : string) : string :=
  match s with
  | EmptyString => EmptyString
  | String c r => String (f c) (map_string f r)
  end.

(** [s.lower()] and [s.upper()] on the ASCII letters; other bytes are kept. *)
Definition lower : string -> string := map_string lower_ascii.
Definition upper : string -> string := map_string upper_ascii.

(** The ASCII characters for which Python's [str.isspace] holds. *)
Definition is_py_space (c : ascii) : bool :=
  let n := nat_of_ascii c in
  (((9 <=? n)%nat && (n <=? 13)%nat) || ((28 <=? n)%nat && (n <=? 32)%nat))%bool.

Fixpoint all_space (s : string) : bool :=
  match s with
  | EmptyString => true
  | String c r => (is_py_space c && all_space r)%bool
  end.

(** [not s.strip()]: the string is empty once its white space is stripped. *)
Definition blank (s : string) : bool := all_space s.

(** [sep.join(l)] *)
Fixpoint join (sep : string) (l : list string) : string :=
  match l with
  | [] => ""
  | [x] => x
  | x :: r => x +:+ sep +:+ join sep r
  end.

Fixpoint ends_with_list (suffix s : list ascii) : bool :=
  if decide (s = suffix) then true
  else match s with
       | [] => false
       | _ :: r => ends_with_list suffix r
       end.

(** [s.endswith(suffix)] *)
Definition endswith (s suffix : string) : bool :=
  ends_with_list (list_ascii_of_string suffix) (list_ascii_of_string s).

End Str.

(** ** The clock: [datetime.now().strftime("%Y%m%d_%H%M%S")] *)

Record datetime := DateTime {
  dt_year : N; dt_month : N; dt_day : N;
  dt_hour : N; dt_minute : N; dt_second : N
}.

Definition digit (n : N) : ascii := ascii_of_N (48 + n mod 10).

(** [%m], [%d], [%H], [%M], [%S]: two digits, zero padded. *)
Definition two_digits (n : N) : string :=
  String (digit (n / 10)) (String (digit n) "").

(** [%Y] for the years 1000..9999 of a running clock: four digits. *)
Definition four_digits (n : N) : string :=
  String (digit (n / 1000)) (String (digit (n / 100))
    (String (digit (n / 10)) (String (digit n) ""))).

Definition strftime (d : datetime) : string :=
  four_digits (dt_year d) +:+ two_digits (dt_month d) +:+ two_digits (dt_day d)
  +:+ "_" +:+ two_digits (dt_hour d) +:+ two_digits (dt_minute d)
  +:+ two_digits (dt_second d).

(** ** [os.path.splitext(p)[0]] (posixpath) *)

Module OsPath.

Definition dot : ascii := "."%char.
Definition sep : ascii := "/"%char.

(** Index of the last occurrence of [c] in [l], as [rfind] gives it. *)
Fixpoint rfind_from (c : ascii) (l : list ascii) (i : Z) (last : Z) : Z :=
  match l with
  | [] => last
  | x :: r => rfind_from c r (i + 1) (if decide (x = c) then i else last)
  end.
Definition rfind (c : ascii) (l : list ascii) : Z := rfind_from c l 0 (-1).

(** The [while filenameIndex < dotIndex] loop: is there a character other
    than a dot between the last separator and the last dot? *)
Definition has_non_dot (l : list ascii) (from to : Z) : bool :=
  existsb (fun c => negb (bool_decide (c = dot)))
          (take (Z.to_nat (to - from)) (drop (Z.to_nat from) l)).

Definition splitext_root (p : string) : string :=
  let l := list_ascii_of_string p in
  let sepIndex := rfind sep l in
  let dotIndex := rfind dot l in
  if ((sepIndex <? dotIndex) && has_non_dot l (sepIndex + 1) dotIndex)%bool
  then string_of_list_ascii (take (Z.to_nat dotIndex) l)
  else p.

End OsPath.

(** ** Python values, as [request.get_json()] produces them *)

Unset Elimination Schemes.
Inductive pyval :=
  | PNone
  | PBool (b : bool)
  | PInt (z : Z)
  | PFloat (f : float)
  | PStr (s : string)
  | PList (l : list pyval)
  | PDict (kv : list (string * pyval)).
Set Elimination Schemes.

Module PyVal.

(** [bool(v)] *)
Definition truthy (v : pyval) : bool :=
  match v with
  | PNone => false
  | PBool b => b
  | PInt z => negb (z =? 0)
  | PFloat f => negb (PrimFloat.eqb f 0%float)
  | PStr s => negb (String.eqb s "")
  | PList l => match l with [] => false | _ => true end
  | PDict kv => match kv with [] => false | _ => true end
  end.

(** [type(v).__name__] *)
Definition type_name (v : pyval) : string :=
  match v with
  | PNone => "NoneType"
  | PBool _ => "bool"
  | PInt _ => "int"
  | PFloat _ => "float"
  | PStr _ => "str"
  | PList _ => "list"
  | PDict _ => "dict"
  end.

(** Lookup in a dict's bindings. *)
Fixpoint dict_get (kv : list (string * pyval)) (k : string) : option pyval :=
  match kv with
  | [] => None
  | (k', v) :: rest => if String.eqb k' k then Some v else dict_get rest k
  end.

Definition is_str (k : string) (v : pyval) : bool :=
  match v with
  | PStr s => String.eqb s k
  | _ => false
  end.

(** [k in v] for a string [k]. *)
Definition contains (k : string) (v : pyval) : outcome bool :=
  match v with
  | PDict kv => Return (if dict_get kv k is Some _ then true else false)
  | PList l => Return (existsb (is_str k) l)
  | PStr s => Return (Str.contains k s)
  | other =>
      Raise (Exn TypeError
        ("argument of type '" +:+ type_name other +:+ "' is not iterable"))
  end.

(** [v[k]] for a string [k]. *)
Definition getitem (v : pyval) (k : string) : outcome pyval :=
  match v with
  | PDict kv =>
      match dict_get kv k with
      | Some x => Return x
      | None => Raise (Exn KeyError ("'" +:+ k +:+ "'"))
      end
  | PList _ =>
      Raise (Exn TypeError "list indices must be integers or slices, not str")
  | PStr _ => Raise (Exn TypeError "string indices must be integers")
  | other =>
      Raise (Exn TypeError
        ("'" +:+ type_name other +:+ "' object is not subscriptable"))
  end.

(** [v.get(k, dflt)] *)
Definition get (v : pyval) (k : string) (dflt : pyval) : outcome pyval :=
  match v with
  | PDict kv => Return (default dflt (dict_get kv k))
  | other =>
      Raise (Exn AttributeError
        ("'" +:+ type_name other +:+ "' object has no attribute 'get'"))
  end.

(** The integer behind an instance of [int]; [bool] is a subclass of [int]. *)
Definition as_int (v : pyval) : option Z :=
  match v with
  | PInt z => Some z
  | PBool b => Some (if b then 1 else 0)
  | _ => None
  end.

(** An operand of integer arithmetic and of [range]. *)
Definition int_operand (v : pyval) : outcome Z :=
  match as_int v with
  | Some z => Return z
  | None =>
      Raise (Exn TypeError
        ("'" +:+ type_name v +:+ "' object cannot be interpreted as an integer"))
  end.

(** [v.upper()] and [v.lower()]: string methods. *)
Definition upper (v : pyval) : outcome string :=
  match v with
  | PStr s => Return (Str.upper s)
  | other =>
      Raise (Exn AttributeError
        ("'" +:+ type_name other +:+ "' object has no attribute 'upper'"))
  end.

Definition lower (v : pyval) : outcome string :=
  match v with
  | PStr s => Return (Str.lower s)
  | other =>
      Raise (Exn AttributeError
        ("'" +:+ type_name other +:+ "' object has no attribute 'lower'"))
  end.

(** A path component for [os.path.join]. *)
Definition as_path (v : pyval) : outcome string :=
  match v with
  | PStr s => Return s
  | other =>
      Raise (Exn TypeError
        ("join() argument must be str, bytes, or os.PathLike object, not '"
         +:+ type_name other +:+ "'"))
  end.

End PyVal.

(** ** The file store and the PyPDF2 objects the engine manipulates *)

Inductive page := PageObj (content : string).

(** Why [PdfReader(path)] rejects a file ([PdfReadError] and its subclass
    [EmptyFileError]), with the library's messages. *)
Inductive read_error := EmptyFile | NoEOFMarker | StreamEnded | NotDecrypted.

Definition read_error_msg (r : read_error) : string :=
  match r with
  | EmptyFile => "Cannot read an empty file"
  | NoEOFMarker => "EOF marker not found"
  | StreamEnded => "Stream has ended unexpectedly"
  | NotDecrypted => "File has not been decrypted"
  end.

Inductive content :=
  | Parsed (pages : list page)
  | Unreadable (why : read_error).

(** A file of the uploads zone: its byte size and what a reader makes of it. *)
Record upload := Upload { up_size : Z; up_content : content }.

(** The rewriting passes [compress_pdf] asks of a writer.  The passes are
    kept as the sequence of calls made on the writer: what PyPDF2 does with
    them is outside the repository. *)
Inductive pass := CompressIdenticalObjects | RemoveDuplicates.

Record PdfWriter := Writer { w_pages : list page; w_passes : list pass }.

(** A file of the processed zone, as [writer.write] leaves it. *)
Record artifact := Artifact {
  art_pages : list page; art_passes : list pass; art_size : Z
}.

(** The one fact of the serialisation the engine observes:
    [os.path.getsize] of a written file. *)
Class PdfLibrary := { written_size : PdfWriter -> Z }.

Definition new_writer : PdfWriter := Writer [] [].
Definition add_page (w : PdfWriter) (p : page) : PdfWriter :=
  Writer (w_pages w ++ [p]) (w_passes w).
Definition add_pages (w : PdfWriter) (ps : list page) : PdfWriter :=
  foldl add_page w ps.
Definition compress_identical_objects (w : PdfWriter) : PdfWriter :=
  Writer (w_pages w) (w_passes w ++ [CompressIdenticalObjects]).
Definition remove_duplicates (w : PdfWriter) : PdfWriter :=
  Writer (w_pages w) (w_passes w ++ [RemoveDuplicates]).
Definition write `{PdfLibrary} (w : PdfWriter) : artifact :=
  Artifact (w_pages w) (w_passes w) (written_size w).

(** [PdfReader(file_path)] followed by [reader.pages]. *)
Definition PdfReader (f : upload) : outcome (list page) :=
  match up_content f with
  | Parsed pages => Return pages
  | Unreadable why => Raise (Exn PdfReadError (read_error_msg why))
  end.

(** [seq[i]] with Python's negative indices. *)
Definition py_index {A} (l : list A) (i : Z) : outcome A :=
  let n := Z.of_nat (length l) in
  let j := if i <? 0 then n + i else i in
  match (if j <? 0 then None else l !! Z.to_nat j) with
  | Some x => Return x
  | None => Raise (Exn IndexError "sequence index out of range")
  end.

(** [range(a, b)] *)
Definition py_range (a b : Z) : list Z := seqZ a (b - a).

(** [float(z)] on an integer below 2^53 in absolute value (every file size). *)
Definition float_of_int (z : Z) : float :=
  if z <? 0 then PrimFloat.opp (PrimFloat.of_uint63 (Uint63.of_Z (- z)))
  else PrimFloat.of_uint63 (Uint63.of_Z z).

(** [a / b] on integers: true division, a float. *)
Definition py_truediv (a b : Z) : outcome float :=
  if b =? 0 then Raise (Exn ZeroDivisionError "division by zero")
  else Return (PrimFloat.div (float_of_int a) (float_of_int b)).

(** ** The engine: [services/pdf_processor.py]

    Each method reads the uploads zone and threads the processed zone, which
    keeps what was written before a failure.  The [try: ... except Exception
    as e: ... raise e] around each method body logs and re-raises, so it does
    not show here.  Failures of the file system while writing are not
    modelled. *)

Module PDFProcessor.
Section Engine.
Context `{PdfLibrary}.

Abbreviation uploads_zone := (gmap string upload).
Abbreviation processed_zone := (gmap string artifact).

Definition file_not_found (filename : string) : exn :=
  Exn FileNotFoundError ("File not found: " +:+ filename).

(** The [for filename in file_list] loop of [merge_pdfs]. *)
Fixpoint merge_loop (uploads : uploads_zone) (file_list : list string)
    (writer : PdfWriter) : outcome PdfWriter :=
  match file_list with
  | [] => Return writer
  | filename :: rest =>
      match uploads !! filename with
      | None => Raise (file_not_found filename)
      | Some f =>
          let! pages := PdfReader f in
          merge_loop uploads rest (add_pages writer pages)
      end
  end.

Definition merged_name (timestamp : string) : string :=
  "merged_" +:+ timestamp +:+ ".pdf".

Definition merge_pdfs (file_list : list string) (uploads : uploads_zone)
    (processed : processed_zone) (now : datetime)
  : outcome string * processed_zone :=
  match merge_loop uploads file_list new_writer with
  | Raise e => (Raise e, processed)
  | Return writer =>
      let timestamp := strftime now in
      let output_filename := merged_name timestamp in
      (Return output_filename, <[output_filename := write writer]> processed)
  end.

(** The [# Determine page range] block of [split_pdf]. *)
Definition pages_to_split (page_range : pyval) (total_pages : Z)
  : outcome (list Z) :=
  if PyVal.truthy page_range then
    let! s := PyVal.get page_range "start" (PInt 1) in
    let! s := PyVal.int_operand s in
    let start_page := s - 1 in
    let! e := PyVal.get page_range "end" (PInt total_pages) in
    let! e := PyVal.int_operand e in
    let end_page := Z.min e total_pages in
    Return (py_range start_page end_page)
  else
    Return (py_range 0 total_pages).

Definition page_name (base_name : string) (page_num : Z) (timestamp : string)
  : string :=
  base_name +:+ "_page_" +:+ pretty (page_num + 1) +:+ "_" +:+ timestamp
  +:+ ".pdf".

(** The [for i, page_num in enumerate(pages_to_split)] loop. *)
Fixpoint split_loop (pages : list page) (base_name timestamp : string)
    (todo : list Z) (processed : processed_zone) (output_files : list string)
  : outcome (list string) * processed_zone :=
  match todo with
  | [] => (Return output_files, processed)
  | page_num :: rest =>
      match py_index pages page_num with
      | Raise e => (Raise e, processed)
      | Return pg =>
          let writer := add_page new_writer pg in
          let output_filename := page_name base_name page_num timestamp in
          split_loop pages base_name timestamp rest
            (<[output_filename := write writer]> processed)
            (output_files ++ [output_filename])
      end
  end.

Definition split_pdf (filename : string) (uploads : uploads_zone)
    (processed : processed_zone) (page_range : pyval) (now : datetime)
  : outcome (list string) * processed_zone :=
  match uploads !! filename with
  | None => (Raise (file_not_found filename), processed)
  | Some f =>
      match PdfReader f with
      | Raise e => (Raise e, processed)
      | Return pages =>
          let total_pages := Z.of_nat (length pages) in
          match pages_to_split page_range total_pages with
          | Raise e => (Raise e, processed)
          | Return todo =>
              let timestamp := strftime now in
              let base_name := OsPath.splitext_root filename in
              split_loop pages base_name timestamp todo processed []
          end
      end
  end.

(** The [if quality == 'high' ... elif ... else] of [compress_pdf]. *)
Definition apply_quality (quality : pyval) (writer : PdfWriter) : PdfWriter :=
  if PyVal.is_str "high" quality then
    compress_identical_objects writer
  else if PyVal.is_str "medium" quality then
    remove_duplicates (compress_identical_objects writer)
  else
    remove_duplicates (compress_identical_objects writer).

Definition compressed_name (base_name timestamp : string) : string :=
  base_name +:+ "_compressed_" +:+ timestamp +:+ ".pdf".

Definition compression_ratio (original_size compressed_size : Z)
  : outcome float :=
  let! q := py_truediv (original_size - compressed_size) original_size in
  Return (PrimFloat.mul q (float_of_int 100)).

Definition compress_pdf (filename : string) (uploads : uploads_zone)
    (processed : processed_zone) (quality : pyval) (now : datetime)
  : outcome (string * float) * processed_zone :=
  match uploads !! filename with
  | None => (Raise (file_not_found filename), processed)
  | Some f =>
      match PdfReader f with
      | Raise e => (Raise e, processed)
      | Return pages =>
          let writer := apply_quality quality (add_pages new_writer pages) in
          let timestamp := strftime now in
          let base_name := OsPath.splitext_root filename in
          let output_filename := compressed_name base_name timestamp in
          let written := write writer in
          let processed' := <[output_filename := written]> processed in
          let original_size := up_size f in
          let compressed_size := art_size written in
          match compression_ratio original_size compressed_size with
          | Raise e => (Raise e, processed')
          | Return ratio => (Return (output_filename, ratio), processed')
          end
      end
  end.

End Engine.
End PDFProcessor.

(** ** The validators: [utils/validators.py] *)

Module Validators.

Definition MAX_FILE_SIZE : Z := 50 * 1024 * 1024.
Definition MIN_FILE_SIZE : Z := 1024.

(** The dict a validator returns: ['valid'] and, as the case may be,
    ['error'], ['data'], ['size'] and ['pages']. *)
Record result := Result {
  valid : bool;
  error : option string;
  data : option pyval;
  size : option Z;
  pages : option Z
}.

Definition failure (msg : string) : result :=
  Result false (Some msg) None None None.
Definition success_data (d : pyval) : result :=
  Result true None (Some d) None None.
Definition success_file (file_size n_pages : Z) : result :=
  Result true None None (Some file_size) (Some n_pages).

(** A block of the function body either returns from the function
    ([Some r]) or falls through to the next statement ([None]). *)
Definition block := outcome (option result).

Definition returns (r : result) : block := Return (Some r).
Definition falls_through : block := Return None.

Definition seq_block (b k : block) : block :=
  match b with
  | Return None => k
  | other => other
  end.
Notation "b ;;; k" := (seq_block b k) (at level 90, right associativity).

(** [if not data: return ...] *)
Definition check_data (d : pyval) : block :=
  if negb (PyVal.truthy d) then returns (failure "No data provided")
  else falls_through.

(** [[param for param in required if param not in data]] *)
Fixpoint missing_params (required : list string) (d : pyval)
  : outcome (list string) :=
  match required with
  | [] => Return []
  | param :: rest =>
      let! present := PyVal.contains param d in
      let! missing := missing_params rest d in
      Return (if present then missing else param :: missing)
  end.

Definition check_required (required : list string) (d : pyval) : block :=
  match required with
  | [] => falls_through
  | _ =>
      let! missing := missing_params required d in
      match missing with
      | [] => falls_through
      | _ =>
          returns (failure ("Missing required parameters: "
                            +:+ Str.join ", " missing))
      end
  end.

(** [not isinstance(filename, str) or not filename.strip()] *)
Definition bad_filename (filename : pyval) : bool :=
  match filename with
  | PStr s => Str.blank s
  | _ => true
  end.

Definition check_files (d : pyval) : block :=
  let! present := PyVal.contains "files" d in
  if present then
    let! files := PyVal.getitem d "files" in
    match files with
    | PList l =>
        match l with
        | [] => returns (failure "Files list cannot be empty")
        | _ =>
            if existsb bad_filename l
            then returns (failure "Invalid filename in files list")
            else falls_through
        end
    | _ => returns (failure "Files parameter must be a list")
    end
  else falls_through.

Definition check_file (d : pyval) : block :=
  let! present := PyVal.contains "file" d in
  if present then
    let! file := PyVal.getitem d "file" in
    if bad_filename file
    then returns (failure "File parameter must be a valid filename")
    else falls_through
  else falls_through.

(** [k in pages and (not isinstance(pages[k], int) or pages[k] < 1)] *)
Definition bad_page_number (kv : list (string * pyval)) (k : string) : bool :=
  match PyVal.dict_get kv k with
  | Some v =>
      match PyVal.as_int v with
      | Some z => z <? 1
      | None => true
      end
  | None => false
  end.

(** ['start' in pages and 'end' in pages and pages['start'] > pages['end']],
    reached once both are known to be instances of [int] when present. *)
Definition start_after_end (kv : list (string * pyval)) : bool :=
  match PyVal.dict_get kv "start", PyVal.dict_get kv "end" with
  | Some s, Some e =>
      match PyVal.as_int s, PyVal.as_int e with
      | Some s, Some e => e <? s
      | _, _ => false
      end
  | _, _ => false
  end.

Definition check_pages (d : pyval) : block :=
  let! present := PyVal.contains "pages" d in
  if present then
    let! pages := PyVal.getitem d "pages" in
    match pages with
    | PDict kv =>
        if bad_page_number kv "start"
        then returns (failure "Start page must be a positive integer")
        else if bad_page_number kv "end"
        then returns (failure "End page must be a positive integer")
        else if start_after_end kv
        then returns (failure "Start page cannot be greater than end page")
        else falls_through
    | _ => returns (failure "Pages parameter must be an object")
    end
  else falls_through.

Definition valid_formats : list string := ["PNG"; "JPEG"; "TIFF"].
Definition valid_qualities : list string := ["low"; "medium"; "high"].

Definition member (s : string) (l : list string) : bool :=
  existsb (String.eqb s) l.

Definition check_format (d : pyval) : block :=
  let! present := PyVal.contains "format" d in
  if present then
    let! format := PyVal.getitem d "format" in
    let! upper := PyVal.upper format in
    if negb (member upper valid_formats)
    then returns (failure ("Invalid format. Supported: "
                           +:+ Str.join ", " valid_formats))
    else falls_through
  else falls_through.

Definition check_dpi (d : pyval) : block :=
  let! present := PyVal.contains "dpi" d in
  if present then
    let! dpi := PyVal.getitem d "dpi" in
    match PyVal.as_int dpi with
    | Some z =>
        if ((z <? 72) || (600 <? z))%bool
        then returns (failure "DPI must be an integer between 72 and 600")
        else falls_through
    | None => returns (failure "DPI must be an integer between 72 and 600")
    end
  else falls_through.

Definition check_quality (d : pyval) : block :=
  let! present := PyVal.contains "quality" d in
  if present then
    let! quality := PyVal.getitem d "quality" in
    let! lower := PyVal.lower quality in
    if negb (member lower valid_qualities)
    then returns (failure ("Invalid quality. Supported: "
                           +:+ Str.join ", " valid_qualities))
    else falls_through
  else falls_through.

(** The statements under the [try:] of [validate_operation_params]. *)
Definition operation_params_body (d : pyval) (required : list string) : block :=
  check_data d ;;;
  check_required required d ;;;
  check_files d ;;;
  check_file d ;;;
  check_pages d ;;;
  check_format d ;;;
  check_dpi d ;;;
  check_quality d ;;;
  returns (success_data d).

(** What the caller gets from a function body: its returned value, or
    [None] when the body ends without a [return]. *)
Definition finish (b : block) : outcome result :=
  let! r := b in
  match r with
  | Some r => Return r
  | None => Return (Result false None None None None)
  end.

Definition validate_operation_params (d : pyval) (required : list string)
  : outcome result :=
  try_except (finish (operation_params_body d required))
    (fun e => Return (failure "Parameter validation failed")).

(** The uploaded file object.  [None] is no file at all; otherwise each
    attribute access and each call on the object may raise. *)
Record file_object := FileObject {
  fo_truthy : bool;                    (* bool(file) *)
  fo_filename : outcome pyval;          (* file.filename *)
  fo_tell : outcome Z;                  (* seek(0, SEEK_END); tell(); seek(0) *)
  fo_read : outcome content             (* read(); seek(0); PdfReader(...) *)
}.

(** The statements under the outer [try:] of [validate_pdf_file]. *)
Definition pdf_file_body (file : option file_object) : block :=
  match file with
  | None => returns (failure "No file provided")
  | Some file =>
      if negb (fo_truthy file) then returns (failure "No file provided") else
      let! filename := fo_filename file in
      if negb (PyVal.truthy filename) then returns (failure "No file provided")
      else
      let! lowered := PyVal.lower filename in
      if negb (Str.endswith lowered ".pdf")
      then returns (failure "File must be a PDF") else
      let! file_size := fo_tell file in
      if MAX_FILE_SIZE <? file_size then
        returns (failure ("File too large. Maximum size: "
                          +:+ pretty (MAX_FILE_SIZE / (1024 * 1024)) +:+ "MB"))
      else if file_size <? MIN_FILE_SIZE then
        returns (failure ("File too small. Minimum size: "
                          +:+ pretty MIN_FILE_SIZE +:+ "B"))
      else
        (* the inner [try: ... except Exception as pdf_error:] *)
        try_except
          (let! c := fo_read file in
           let! pages := PdfReader (Upload file_size c) in
           match pages with
           | [] => returns (failure "PDF file contains no pages")
           | _ => returns (success_file file_size (Z.of_nat (length pages)))
           end)
          (fun pdf_error =>
             returns (failure ("Invalid PDF file: " +:+ str pdf_error)))
  end.

Definition validate_pdf_file (file : option file_object) : outcome result :=
  try_except (finish (pdf_file_body file))
    (fun e => Return (failure "File validation failed")).

End Validators.

(** ** The job ledger: [models.py] *)

Record ProcessingJob := Job {
  id : Z;
  user_id : Z;
  operation : string;
  input_files : pyval;                  (* the value given to json.dumps *)
  output_files : option (list string);  (* None until json.dumps(outputs) *)
  status : string;
  error_message : option string;
  created_at : datetime;
  completed_at : option datetime
}.

(** [db.session] over the [processing_job] table with its integer key. *)
Record database := Database {
  rows : gmap Z ProcessingJob;
  next_id : Z
}.

Module Db.

(** [db.session.add(job); db.session.commit()] of a fresh row. *)
Definition add (mk : Z -> ProcessingJob) (d : database)
  : ProcessingJob * database :=
  let job := mk (next_id d) in
  (job, Database (<[next_id d := job]> (rows d)) (next_id d + 1)).

(** [db.session.commit()] after the attributes of [job] were assigned. *)
Definition commit (job : ProcessingJob) (d : database) : database :=
  Database (<[id job := job]> (rows d)) (next_id d).

(** [ProcessingJob.query.get_or_404(job_id)]: [abort(404)] raises
    werkzeug's [NotFound], an [HTTPException]. *)
Definition get_or_404 (d : database) (job_id : Z) : outcome ProcessingJob :=
  match rows d !! job_id with
  | Some job => Return job
  | None =>
      Raise (Exn (HTTPException 404)
        "404 Not Found: The requested URL was not found on the server. If you entered the URL manually please check your spelling and try again.")
  end.

End Db.

(** ** The orchestrator and the status query: [routes/api.py] *)

Module Api.
Section Handlers.
Context `{PdfLibrary}.

Record world := World {
  uploads : gmap string upload;
  processed : gmap string artifact;
  db : database
}.

(** What a handler reads of the request: the identity [require_api_key]
    attached to it, the JSON body and the clock. *)
Record request := Request {
  current_user : Z;
  json : pyval;
  now : datetime
}.

Record response := Response {
  status_code : Z;
  body : list (string * pyval)
}.

(** [jsonify({...})] and [jsonify({'error': msg}), code] *)
Definition jsonify (fields : list (string * pyval)) : response :=
  Response 200 fields.
Definition error_response (msg : string) (code : Z) : response :=
  Response code [("error", PStr msg)].
Definition internal_server_error : response :=
  error_response "Internal server error" 500.

(** [d.isoformat()], without the microseconds. *)
Definition isoformat (d : datetime) : string :=
  four_digits (dt_year d) +:+ "-" +:+ two_digits (dt_month d) +:+ "-"
  +:+ two_digits (dt_day d) +:+ "T" +:+ two_digits (dt_hour d) +:+ ":"
  +:+ two_digits (dt_minute d) +:+ ":" +:+ two_digits (dt_second d).

Definition optional_field (k : string) (v : option pyval)
  : list (string * pyval) :=
  match v with
  | Some v => [(k, v)]
  | None => []
  end.

(** The body of the [try:] of [get_job_status]. *)
Definition get_job_status_try (job_id : Z) (req : request) (w : world)
  : outcome response :=
  let! job := Db.get_or_404 (db w) job_id in
  if negb (user_id job =? current_user req) then
    Return (error_response "Unauthorized" 403)
  else
    Return (jsonify (
      [("job_id", PInt (id job));
       ("operation", PStr (operation job));
       ("status", PStr (status job));
       ("created_at", PStr (isoformat (created_at job)))]
      ++ optional_field "completed_at"
           (PStr ∘ isoformat <$> completed_at job)
      ++ optional_field "error"
           (match error_message job with
            | Some msg => if String.eqb msg "" then None else Some (PStr msg)
            | None => None
            end)
      ++ optional_field "output_files"
           (match output_files job with
            | Some outs =>
                if String.eqb (status job) "completed"
                then Some (PList (PStr <$> outs)) else None
            | None => None
            end))).

Definition get_job_status (job_id : Z) (req : request) (w : world)
  : response :=
  match get_job_status_try job_id req w with
  | Return resp => resp
  | Raise e => internal_server_error
  end.

(** [validation = validate_operation_params(...)] followed by
    [if not validation['valid']: return jsonify({'error': ...}), 400];
    [Some resp] is that early return. *)
Definition validation_gate (d : pyval) (required : list string)
  : outcome (option response) :=
  let! validation := Validators.validate_operation_params d required in
  if negb (Validators.valid validation) then
    match Validators.error validation with
    | Some msg => Return (Some (error_response msg 400))
    | None => Raise (Exn KeyError "'error'")
    end
  else Return None.

Definition new_job (req : request) (op : string) (inputs : pyval) (job_id : Z)
  : ProcessingJob :=
  Job job_id (current_user req) op inputs None "processing" None (now req) None.

(** [job.status = 'completed'; job.output_files = json.dumps(outs);
     job.completed_at = datetime.utcnow()] *)
Definition completed (job : ProcessingJob) (outs : list string)
    (at_time : datetime) : ProcessingJob :=
  Job (id job) (user_id job) (operation job) (input_files job) (Some outs)
      "completed" (error_message job) (created_at job) (Some at_time).

(** [job.status = 'failed'; job.error_message = str(e)] *)
Definition failed (job : ProcessingJob) (e : exn) : ProcessingJob :=
  Job (id job) (user_id job) (operation job) (input_files job)
      (output_files job) "failed" (Some (str e)) (created_at job)
      (completed_at job).

(** The list of path components a [for filename in file_list] loop sees. *)
Fixpoint as_paths (l : list pyval) : outcome (list string) :=
  match l with
  | [] => Return []
  | v :: rest =>
      let! p := PyVal.as_path v in
      let! ps := as_paths rest in
      Return (p :: ps)
  end.

Definition as_file_list (v : pyval) : outcome (list string) :=
  match v with
  | PList l => as_paths l
  | other =>
      Raise (Exn TypeError
        ("'" +:+ PyVal.type_name other +:+ "' object is not iterable"))
  end.

(** The engine call under the inner [try:] of the [/merge] handler. *)
Definition merge_engine_call (req : request) (w : world) (files : pyval)
  : outcome string * gmap string artifact :=
  match as_file_list files with
  | Raise e => (Raise e, processed w)
  | Return file_list =>
      PDFProcessor.merge_pdfs file_list (uploads w) (processed w) (now req)
  end.

(** The body of the outer [try:] of the [/merge] handler. *)
Definition merge_pdfs_try (req : request) (w : world)
  : outcome response * world :=
  let data := json req in
  match validation_gate data ["files"] with
  | Raise e => (Raise e, w)
  | Return (Some resp) => (Return resp, w)
  | Return None =>
      match PyVal.getitem data "files" with
      | Raise e => (Raise e, w)
      | Return files =>
          let (job, db1) := Db.add (new_job req "merge" files) (db w) in
          (* the inner [try:] *)
          let '(result, processed1) := merge_engine_call req w files in
          match result with
          | Return output_path =>
              let job := completed job [output_path] (now req) in
              (Return (jsonify
                 [("job_id", PInt (id job));
                  ("message", PStr "PDFs merged successfully");
                  ("output_file", PStr output_path)]),
               World (uploads w) processed1 (Db.commit job db1))
          | Raise e =>
              let job := failed job e in
              (Raise e, World (uploads w) processed1 (Db.commit job db1))
          end
      end
  end.

Definition merge_pdfs (req : request) (w : world) : response * world :=
  match merge_pdfs_try req w with
  | (Return resp, w') => (resp, w')
  | (Raise e, w') => (internal_server_error, w')
  end.

(** The engine call under the inner [try:] of the [/split] handler. *)
Definition split_engine_call (req : request) (w : world) (file : pyval)
  : outcome (list string) * gmap string artifact :=
  match PyVal.as_path file, PyVal.get (json req) "pages" PNone with
  | Raise e, _ => (Raise e, processed w)
  | _, Raise e => (Raise e, processed w)
  | Return filename, Return page_range =>
      PDFProcessor.split_pdf filename (uploads w) (processed w) page_range
        (now req)
  end.

(** The body of the outer [try:] of the [/split] handler. *)
Definition split_pdf_try (req : request) (w : world)
  : outcome response * world :=
  let data := json req in
  match validation_gate data ["file"] with
  | Raise e => (Raise e, w)
  | Return (Some resp) => (Return resp, w)
  | Return None =>
      match PyVal.getitem data "file" with
      | Raise e => (Raise e, w)
      | Return file =>
          let (job, db1) :=
            Db.add (new_job req "split" (PList [file])) (db w) in
          (* the inner [try:] *)
          let '(result, processed1) := split_engine_call req w file in
          match result with
          | Return output_paths =>
              let job := completed job output_paths (now req) in
              (Return (jsonify
                 [("job_id", PInt (id job));
                  ("message", PStr "PDF split successfully");
                  ("output_files", PList (PStr <$> output_paths))]),
               World (uploads w) processed1 (Db.commit job db1))
          | Raise e =>
              let job := failed job e in
              (Raise e, World (uploads w) processed1 (Db.commit job db1))
          end
      end
  end.

Definition split_pdf (req : request) (w : world) : response * world :=
  match split_pdf_try req w with
  | (Return resp, w') => (resp, w')
  | (Raise e, w') => (internal_server_error, w')
  end.

(** The engine call under the inner [try:] of the [/compress] handler. *)
Definition compress_engine_call (req : request) (w : world) (file : pyval)
  : outcome (string * float) * gmap string artifact :=
  match PyVal.as_path file,
        PyVal.get (json req) "quality" (PStr "medium") with
  | Raise e, _ => (Raise e, processed w)
  | _, Raise e => (Raise e, processed w)
  | Return filename, Return quality =>
      PDFProcessor.compress_pdf filename (uploads w) (processed w) quality
        (now req)
  end.

(** The body of the outer [try:] of the [/compress] handler. *)
Definition compress_pdf_try (req : request) (w : world)
  : outcome response * world :=
  let data := json req in
  match validation_gate data ["file"] with
  | Raise e => (Raise e, w)
  | Return (Some resp) => (Return resp, w)
  | Return None =>
      match PyVal.getitem data "file" with
      | Raise e => (Raise e, w)
      | Return file =>
          let (job, db1) :=
            Db.add (new_job req "compress" (PList [file])) (db w) in
          (* the inner [try:] *)
          let '(result, processed1) := compress_engine_call req w file in
          match result with
          | Return (output_path, compression_ratio) =>
              let job := completed job [output_path] (now req) in
              (Return (jsonify
                 [("job_id", PInt (id job));
                  ("message", PStr "PDF compressed successfully");
                  ("output_file", PStr output_path);
                  ("compression_ratio", PFloat compression_ratio)]),
               World (uploads w) processed1 (Db.commit job db1))
          | Raise e =>
              let job := failed job e in
              (Raise e, World (uploads w) processed1 (Db.commit job db1))
          end
      end
  end.

Definition compress_pdf (req : request) (w : world) : response * world :=
  match compress_pdf_try req w with
  | (Return resp, w') => (resp, w')
  | (Raise e, w') => (internal_server_error, w')
  end.

End Handlers.
End Api.

(** ** More of the engine: [convert_to_images] *)

(** The placeholder image of a page: [Image.new('RGB', (595, 842))] saved
    with a format and a resolution. *)
Record image := Image {
  img_width : Z; img_height : Z; img_format : string; img_dpi : pyval
}.

(** What is taken from PIL: whether [img.save(path, format=..., dpi=...)]
    raises, and what. *)
Class ImageLibrary := { save_error : string → string → pyval → option exn }.

(** What [convert_to_images] raises: an exception of one of the modelled
    classes, or [Exception(msg)] itself. *)
Inductive raised :=
  | Raised (e : exn)
  | PlainException (msg : string).

Module Converter.
Section Convert.
Context `{ImageLibrary}.

Definition supported_formats : list string := ["PNG"; "JPEG"; "TIFF"].

Definition image_name (base_name : string) (i : Z) (timestamp lowered : string)
  : string :=
  base_name +:+ "_page_" +:+ pretty (i + 1) +:+ "_" +:+ timestamp +:+ "."
  +:+ lowered.

(** The [for i, page in enumerate(reader.pages)] loop, with its
    [try: ... except Exception: continue] around each page. *)
Fixpoint convert_loop (pages : list page) (i : Z)
    (base_name timestamp uppered lowered : string) (dpi : pyval)
    (images : gmap string image) (output_files : list string)
  : list string * gmap string image :=
  match pages with
  | [] => (output_files, images)
  | _ :: rest =>
      let output_filename := image_name base_name i timestamp lowered in
      match save_error output_filename uppered dpi with
      | None =>
          convert_loop rest (i + 1) base_name timestamp uppered lowered dpi
            (<[output_filename := Image 595 842 uppered dpi]> images)
            (output_files ++ [output_filename])
      | Some page_error =>
          convert_loop rest (i + 1) base_name timestamp uppered lowered dpi
            images output_files
      end
  end.

Definition convert_to_images (filename : string)
    (uploads : gmap string upload) (images : gmap string image)
    (format : pyval) (dpi : pyval) (now : datetime)
  : (list string + raised) * gmap string image :=
  match uploads !! filename with
  | None => (inr (Raised (PDFProcessor.file_not_found filename)), images)
  | Some f =>
      match format with
      | PStr fmt =>
          if negb (Validators.member (Str.upper fmt) supported_formats) then
            (inr (Raised (Exn ValueError
               ("Unsupported format: " +:+ fmt
                +:+ ". Supported: ['PNG', 'JPEG', 'TIFF']"))), images)
          else
            match PdfReader f with
            | Raise e => (inr (Raised e), images)
            | Return pages =>
                let timestamp := strftime now in
                let base_name := OsPath.splitext_root filename in
                let '(output_files, images') :=
                  convert_loop pages 0 base_name timestamp (Str.upper fmt)
                    (Str.lower fmt) dpi images [] in
                match output_files with
                | [] =>
                    (inr (PlainException
                            "No pages could be converted to images"),
                     images')
                | _ => (inl output_files, images')
                end
            end
      | other =>
          (inr (Raised (Exn AttributeError
             ("'" +:+ PyVal.type_name other
              +:+ "' object has no attribute 'upper'"))), images)
      end
  end.

End Convert.
End Converter.

(** An image library for the examples: saving at a resolution that is not
    an integer fails. *)
Definition demo_images : ImageLibrary :=
  {| save_error path fmt dpi :=
       match PyVal.as_int dpi with
       | Some _ => None
       | None => Some (Exn TypeError "dpi must be a number")
       end |}.

(** ** Storing an upload: [utils/file_handler.py] and the [/upload] handler *)

(** What is taken from werkzeug: [secure_filename]. *)
Class WebLibrary := { secure_filename : string → string }.

Module FileHandler.

Definition ALLOWED_EXTENSIONS : list string := ["pdf"].

(** [filename.rsplit('.', 1)[1]], for a filename with a dot in it. *)
Definition after_last_dot (filename : string) : string :=
  let l := list_ascii_of_string filename in
  string_of_list_ascii (drop (Z.to_nat (OsPath.rfind OsPath.dot l + 1)) l).

Definition allowed_file (filename : string) : bool :=
  Str.contains "." filename
  && Validators.member (Str.lower (after_last_dot filename))
       ALLOWED_EXTENSIONS.

(** [os.path.splitext(p)]: the root as before, and the extension. *)
Definition splitext (p : string) : string * string :=
  let l := list_ascii_of_string p in
  let sepIndex := OsPath.rfind OsPath.sep l in
  let dotIndex := OsPath.rfind OsPath.dot l in
  if ((sepIndex <? dotIndex)
      && OsPath.has_non_dot l (sepIndex + 1) dotIndex)%bool
  then (string_of_list_ascii (take (Z.to_nat dotIndex) l),
        string_of_list_ascii (drop (Z.to_nat dotIndex) l))
  else (p, "").

Section Save.
Context `{WebLibrary}.

(** [save_uploaded_file(file, upload_folder)]; [file.save] stores the
    stream, its size and content being what [tell] and [read] gave the
    validator.  The [try: ... except: raise e] around the body only logs. *)
Definition save_uploaded_file (file : Validators.file_object)
    (uploads : gmap string upload) (now : datetime)
  : outcome string * gmap string upload :=
  match Validators.fo_filename file with
  | Raise e => (Raise e, uploads)
  | Return (PStr original) =>
      if negb (allowed_file original) then
        (Raise (Exn ValueError "File type not allowed"), uploads)
      else
        let timestamp := strftime now in
        let original_name := secure_filename original in
        let '(name, ext) := splitext original_name in
        let filename := name +:+ "_" +:+ timestamp +:+ ext in
        match Validators.fo_tell file, Validators.fo_read file with
        | Return file_size, Return stored =>
            (Return filename,
             <[filename := Upload file_size stored]> uploads)
        | Raise e, _ => (Raise e, uploads)
        | _, Raise e => (Raise e, uploads)
        end
  | Return other =>
      (Raise (Exn TypeError
         ("argument of type '" +:+ PyVal.type_name other
          +:+ "' is not iterable")), uploads)
  end.

End Save.
End FileHandler.

Module Upload.
Section Handler.
Context `{WebLibrary}.

(** What the [/upload] handler reads of the request:
    [request.files.get('file')] and the clock. *)
Record request := Request {
  file_part : option Validators.file_object;
  now : datetime
}.

(** The body of the [try:] of [upload_file]. *)
Definition upload_file_try (req : request) (w : Api.world)
  : outcome Api.response * Api.world :=
  match file_part req with
  | None => (Return (Api.error_response "No file provided" 400), w)
  | Some file =>
      match Validators.fo_filename file with
      | Raise e => (Raise e, w)
      | Return filename =>
          if PyVal.is_str "" filename then
            (Return (Api.error_response "No file selected" 400), w)
          else
            match Validators.validate_pdf_file (Some file) with
            | Raise e => (Raise e, w)
            | Return validation_result =>
                if negb (Validators.valid validation_result) then
                  match Validators.error validation_result with
                  | Some msg => (Return (Api.error_response msg 400), w)
                  | None => (Raise (Exn KeyError "'error'"), w)
                  end
                else
                  match FileHandler.save_uploaded_file file (Api.uploads w)
                          (now req) with
                  | (Raise e, uploads') =>
                      (Raise e,
                       Api.World uploads' (Api.processed w) (Api.db w))
                  | (Return filename, uploads') =>
                      match Validators.size validation_result with
                      | Some file_size =>
                          (Return (Api.jsonify
                             [("message", PStr "File uploaded successfully");
                              ("filename", PStr filename);
                              ("size", PInt file_size)]),
                           Api.World uploads' (Api.processed w) (Api.db w))
                      | None =>
                          (Raise (Exn KeyError "'size'"),
                           Api.World uploads' (Api.processed w) (Api.db w))
                      end
                  end
            end
      end
  end.

Definition upload_file (req : request) (w : Api.world)
  : Api.response * Api.world :=
  match upload_file_try req w with
  | (Return resp, w') => (resp, w')
  | (Raise e, w') => (Api.internal_server_error, w')
  end.

End Handler.
End Upload.

(** A [secure_filename] for the examples: it keeps letters, digits, dots,
    dashes and underscores and drops everything else. *)
Definition keep_safe_char (c : ascii) : bool :=
  let n := nat_of_ascii c in
  (((48 <=? n)%nat && (n <=? 57)%nat) || ((65 <=? n)%nat && (n <=? 90)%nat)
   || ((97 <=? n)%nat && (n <=? 122)%nat)
   || bool_decide (c = "."%char) || bool_decide (c = "-"%char)
   || bool_decide (c = "_"%char))%bool.

Definition demo_web : WebLibrary :=
  {| secure_filename s :=
       string_of_list_ascii
         (List.filter keep_safe_char (list_ascii_of_string s)) |}.

(** ** The sweep of old files: [cleanup_old_files] *)

Module Cleanup.

(** An entry of a directory: a sub-directory, or a file with its
    modification time and whether [os.remove] succeeds on it. *)
Inductive entry :=
  | Directory
  | RegularFile (mtime : float) (removable : bool).

(** [time.time() - (hours * 3600)], for the clock reading [now].  On a string
    or a list the product is a repetition and the subtraction raises; on
    [None] or a dict the product raises.  Integers are taken below 2^63 in
    absolute value. *)
Definition cutoff_time (now : float) (hours : pyval) : outcome float :=
  match hours with
  | PInt h => Return (PrimFloat.sub now (float_of_int (h * 3600)))
  | PBool b =>
      Return (PrimFloat.sub now (float_of_int ((if b then 1 else 0) * 3600)))
  | PFloat h =>
      Return (PrimFloat.sub now (PrimFloat.mul h (float_of_int 3600)))
  | PStr _ | PList _ =>
      Raise (Exn TypeError
        ("unsupported operand type(s) for -: 'float' and '"
         +:+ PyVal.type_name hours +:+ "'"))
  | PNone | PDict _ =>
      Raise (Exn TypeError
        ("unsupported operand type(s) for *: '" +:+ PyVal.type_name hours
         +:+ "' and 'int'"))
  end.

(** One round of the [for filename in os.listdir(directory)] loop. *)
Definition clean_step (cutoff : float) (state : gmap string entry * Z)
    (listed : string * entry) : gmap string entry * Z :=
  let '(dir, cleaned_count) := state in
  let '(filename, e) := listed in
  match e with
  | Directory => state
  | RegularFile mtime removable =>
      if String.eqb filename ".gitkeep" then state
      else if PrimFloat.ltb mtime cutoff then
        if removable then (delete filename dir, cleaned_count + 1)
        else state
      else state
  end.

(** One round of the [for directory in directories] loop; [os.listdir]
    gives the entries the directory has when the round starts. *)
Definition clean_directory (cutoff : float)
    (state : gmap string (gmap string entry) * Z) (directory : string)
  : gmap string (gmap string entry) * Z :=
  let '(fs, cleaned_count) := state in
  match fs !! directory with
  | None => state
  | Some dir =>
      let '(dir', cleaned_count') :=
        foldl (clean_step cutoff) (dir, cleaned_count) (map_to_list dir) in
      (<[directory := dir']> fs, cleaned_count')
  end.

Definition cleanup_old_files (directories : list string) (hours : pyval)
    (fs : gmap string (gmap string entry)) (now : float)
  : outcome Z * gmap string (gmap string entry) :=
  match cutoff_time now hours with
  | Raise e => (Raise e, fs)
  | Return cutoff =>
      let '(fs', cleaned_count) :=
        foldl (clean_directory cutoff) (fs, 0) directories in
      (Return cleaned_count, fs')
  end.

End Cleanup.

(** ** Data for running the model *)

(** A serialisation for running the engine on examples: 700 bytes of
    overhead, 400 bytes a page, and 30 bytes saved by each rewriting pass. *)
Definition demo_library : PdfLibrary :=
  {| written_size w :=
       700 + 400 * Z.of_nat (length (w_pages w))
       - 30 * Z.of_nat (length (w_passes w)) |}.

Definition demo_uploads : gmap string upload :=
  <["a.pdf" := Upload 2000 (Parsed [PageObj "a1"; PageObj "a2"; PageObj "a3"])]>
  (<["b.pdf" := Upload 1500 (Parsed [PageObj "b1"; PageObj "b2"])]>
  (<["tiny.pdf" := Upload 1024 (Parsed [PageObj "t1"])]>
  (<["junk.pdf" := Upload 4096 (Unreadable NoEOFMarker)]> ∅))).

Definition demo_now : datetime := DateTime 2024 3 9 14 5 0.
Definition demo_later : datetime := DateTime 2024 3 9 14 5 1.

Definition demo_world : @Api.world :=
  Api.World demo_uploads ∅ (Database ∅ 1).

Definition pages_2_3 : pyval := PDict [("start", PInt 2); ("end", PInt 3)].

Definition missing_file_request : Api.request :=
  Api.Request 7 (PDict [("files", PList [PStr "a.pdf"; PStr "gone.pdf"])])
    demo_now.

Definition split_beyond_request : Api.request :=
  Api.Request 7
    (PDict [("file", PStr "b.pdf");
            ("pages", PDict [("start", PInt 5); ("end", PInt 6)])])
    demo_now.


Definition merge_request : Api.request :=
  Api.Request 7 (PDict [("files", PList [PStr "a.pdf"; PStr "b.pdf"])])
    demo_now.

Definition no_file_request : Api.request :=
  Api.Request 7 (PDict [("dpi", PInt 100)]) demo_now.

Definition tiny_unreadable_file : Validators.file_object :=
  Validators.FileObject true (Return (PStr "Scan.PDF")) (Return 200)
    (Raise (Exn OSError "read failed")).

Definition report_file : Validators.file_object :=
  Validators.FileObject true (Return (PStr "My Report.PDF")) (Return 2048)
    (Return (Parsed [PageObj "r1"; PageObj "r2"])).

(** Two directories at the clock reading 10000.0: one old file, one fresh
    file, a [.gitkeep], a locked old file and a sub-directory. *)
Definition demo_fs : gmap string (gmap string Cleanup.entry) :=
  <["uploads" :=
      <["old.pdf" := Cleanup.RegularFile 100%float true]>
      (<["new.pdf" := Cleanup.RegularFile 9000%float true]>
      (<[".gitkeep" := Cleanup.RegularFile 1%float true]>
      (<["locked.pdf" := Cleanup.RegularFile 50%float false]>
      (<["archive" := Cleanup.Directory]> ∅))))]>
  (<["processed" := <["out.pdf" := Cleanup.RegularFile 200%float true]> ∅]>
   ∅).

(** ** Vocabulary of the specification *)

(** A valid input file: it is in the uploads zone and a reader opens it. *)
Definition valid_input (uploads : gmap string upload) (filename : string)
  : Prop :=
  ∃ f ps, uploads !! filename = Some f ∧ up_content f = Parsed ps.

(** The pages of an input file, none if it is missing or unreadable. *)
Definition pages_of (uploads : gmap string upload) (filename : string)
  : list page :=
  match uploads !! filename with
  | Some (Upload _ (Parsed ps)) => ps
  | _ => []
  end.

(** A reading of a running clock: the ranges of the fields of a
    [datetime] that [%Y%m%d_%H%M%S] prints at full width. *)
Definition clock_reading (d : datetime) : Prop :=
  (dt_year d < 10000 ∧ dt_month d < 100 ∧ dt_day d < 100
   ∧ dt_hour d < 100 ∧ dt_minute d < 100 ∧ dt_second d < 100)%N.

(** [generated now name]: some call of the engine, made when the clock reads
    [now], returns [name] as (one of) its output filename(s). *)
Inductive generated `{PdfLibrary} (now : datetime) : string → Prop :=
  | generated_merge files uploads processed name processed' :
      PDFProcessor.merge_pdfs files uploads processed now
      = (Return name, processed') →
      generated now name
  | generated_split filename uploads processed page_range outputs processed'
      name :
      PDFProcessor.split_pdf filename uploads processed page_range now
      = (Return outputs, processed') →
      name ∈ outputs →
      generated now name
  | generated_compress filename uploads processed quality name ratio
      processed' :
      PDFProcessor.compress_pdf filename uploads processed quality now
      = (Return (name, ratio), processed') →
      generated now name.

(** The tags by which an output filename tells the operation it comes from. *)
Definition operation_tags : list string :=
  ["merged_"; "_page_"; "_compressed_"].

(** The job-backed operations of the orchestrator that are modelled. *)
Inductive endpoint := Merge | Split | Compress.

(** The handler of an endpoint and the parameter it requires. *)
Definition handler `{PdfLibrary} (ep : endpoint)
  : Api.request → Api.world → Api.response * Api.world :=
  match ep with
  | Merge => Api.merge_pdfs
  | Split => Api.split_pdf
  | Compress => Api.compress_pdf
  end.

Definition required_param (ep : endpoint) : string :=
  match ep with
  | Merge => "files"
  | Split | Compress => "file"
  end.

(** The failure, if any, of the engine call that the handler of [ep] makes
    for the validated parameter [arg]. *)
Definition engine_failure `{PdfLibrary} (ep : endpoint) (req : Api.request)
    (w : Api.world) (arg : pyval) : option exn :=
  match ep with
  | Merge =>
      match (Api.merge_engine_call req w arg).1 with
      | Raise e => Some e
      | Return _ => None
      end
  | Split =>
      match (Api.split_engine_call req w arg).1 with
      | Raise e => Some e
      | Return _ => None
      end
  | Compress =>
      match (Api.compress_engine_call req w arg).1 with
      | Raise e => Some e
      | Return _ => None
      end
  end.

(** A failure with a description: [str(e)] is not the empty string. *)
Definition described (e : exn) : Prop := str e ≠ "".

(** What the handler of [ep] records as the inputs of its job row, for the
    parameter [arg] it read from the body. *)
Definition job_inputs (ep : endpoint) (arg : pyval) : pyval :=
  match ep with
  | Merge => arg
  | Split | Compress => PList [arg]
  end.

(** A result record as the callers of the validators expect it: a success,
    or a failure that carries an error message. *)
Definition well_formed (r : Validators.result) : Prop :=
  (Validators.valid r = true ∧ Validators.error r = None)
  ∨ (Validators.valid r = false ∧ ∃ msg, Validators.error r = Some msg).

(** A block that, if it returns, returns a well-formed record. *)
Definition sound_block (b : Validators.block) : Prop :=
  match b with
  | Return (Some r) => well_formed r
  | _ => True
  end.

(** A function body: a sound block that does not end without a [return]. *)
Definition sound_body (b : Validators.block) : Prop :=
  match b with
  | Return (Some r) => well_formed r
  | Return None => False
  | Raise _ => True
  end.

(** *** The parameter checks, in the words of the specification *)

Module ParamSpec.

Inductive field := Files | File | Pages | Format | Dpi | Quality.

(** files -> file -> pages -> format -> dpi -> quality *)
Definition check_order : list field :=
  [Files; File; Pages; Format; Dpi; Quality].

Definition field_key (f : field) : string :=
  match f with
  | Files => "files"
  | File => "file"
  | Pages => "pages"
  | Format => "format"
  | Dpi => "dpi"
  | Quality => "quality"
  end.

(** The block of [validate_operation_params] that checks a field. *)
Definition block_of (f : field) : pyval → Validators.block :=
  match f with
  | Files => Validators.check_files
  | File => Validators.check_file
  | Pages => Validators.check_pages
  | Format => Validators.check_format
  | Dpi => Validators.check_dpi
  | Quality => Validators.check_quality
  end.

Definition non_blank_string (v : pyval) : bool :=
  match v with
  | PStr s => negb (Str.blank s)
  | _ => false
  end.

(** A positive integer, when the key is there at all. *)
Definition positive_if_present (kv : list (string * pyval)) (k : string)
  : bool :=
  match PyVal.dict_get kv k with
  | Some v =>
      match PyVal.as_int v with
      | Some z => 1 <=? z
      | None => false
      end
  | None => true
  end.

(** If both are present, [start <= end]. *)
Definition start_le_end (kv : list (string * pyval)) : bool :=
  match PyVal.dict_get kv "start", PyVal.dict_get kv "end" with
  | Some s, Some e =>
      match PyVal.as_int s, PyVal.as_int e with
      | Some s, Some e => s <=? e
      | _, _ => true
      end
  | _, _ => true
  end.

(** The constraint of section 4.1 on the value of a field. *)
Definition acceptable (f : field) (v : pyval) : bool :=
  match f with
  | Files =>
      match v with
      | PList l => negb (bool_decide (l = [])) && forallb non_blank_string l
      | _ => false
      end
  | File => non_blank_string v
  | Pages =>
      match v with
      | PDict kv =>
          positive_if_present kv "start" && positive_if_present kv "end"
          && start_le_end kv
      | _ => false
      end
  | Format =>
      match v with
      | PStr s => Validators.member (Str.upper s) ["PNG"; "JPEG"; "TIFF"]
      | _ => false
      end
  | Dpi =>
      match PyVal.as_int v with
      | Some z => (72 <=? z) && (z <=? 600)
      | None => false
      end
  | Quality =>
      match v with
      | PStr s => Validators.member (Str.lower s) ["low"; "medium"; "high"]
      | _ => false
      end
  end.

(** A field offends when it is present with a value that is not acceptable. *)
Definition offends (kv : list (string * pyval)) (f : field) : bool :=
  match PyVal.dict_get kv (field_key f) with
  | Some v => negb (acceptable f v)
  | None => false
  end.

Definition first_offending (kv : list (string * pyval)) : option field :=
  find (offends kv) check_order.

(** The word by which an error message names a field. *)
Definition field_word (f : field) : string :=
  match f with
  | Files => "files"
  | File => "file"
  | Pages => "page"
  | Format => "format"
  | Dpi => "dpi"
  | Quality => "quality"
  end.

Definition names_field (msg : string) (f : field) : bool :=
  Str.contains (field_word f) (Str.lower msg).

(** The fields whose check calls a string method on the value, and the
    values that have no such method. *)
Definition not_a_string_at (kv : list (string * pyval)) (f : field) : bool :=
  match f with
  | Format | Quality =>
      match PyVal.dict_get kv (field_key f) with
      | Some (PStr _) | None => false
      | Some _ => true
      end
  | _ => false
  end.

End ParamSpec.

(** *** Further vocabulary *)

(** The 1-based first page a [pages] mapping selects: its ['start'], which
    has to be an instance of [int], or 1. *)
Definition range_start (kv : list (string * pyval)) : option Z :=
  match PyVal.dict_get kv "start" with
  | Some v => PyVal.as_int v
  | None => Some 1
  end.

(** The last page a [pages] mapping asks for: its ['end'] or the last page
    of the document. *)
Definition range_end (kv : list (string * pyval)) (total_pages : Z)
  : option Z :=
  match PyVal.dict_get kv "end" with
  | Some v => PyVal.as_int v
  | None => Some total_pages
  end.

(** The value of the [operation] column for the jobs of an endpoint. *)
Definition operation_name (ep : endpoint) : string :=
  match ep with
  | Merge => "merge"
  | Split => "split"
  | Compress => "compress"
  end.

(** The output filenames, if it returns, of the engine call that the
    handler of [ep] makes for the validated parameter [arg]. *)
Definition engine_outputs `{PdfLibrary} (ep : endpoint) (req : Api.request)
    (w : Api.world) (arg : pyval) : option (list string) :=
  match ep with
  | Merge =>
      match (Api.merge_engine_call req w arg).1 with
      | Return name => Some [name]
      | Raise _ => None
      end
  | Split =>
      match (Api.split_engine_call req w arg).1 with
      | Return names => Some names
      | Raise _ => None
      end
  | Compress =>
      match (Api.compress_engine_call req w arg).1 with
      | Return (name, _) => Some [name]
      | Raise _ => None
      end
  end.

(** A job that has reached the end of its request: it has inputs, and it is
    either completed with its list of outputs, which only a split may leave
    empty, or failed with a message and without outputs. *)
Definition job_settled (j : ProcessingJob) : Prop :=
  (∃ l, input_files j = PList l ∧ l ≠ [])
  ∧ ((status j = "completed"
      ∧ ∃ outs, output_files j = Some outs
                ∧ (operation j ≠ "split" → outs ≠ []))
     ∨ (status j = "failed"
        ∧ output_files j = None
        ∧ ∃ msg, error_message j = Some msg ∧ msg ≠ "")).


(** The pages, by 0-based index, whose image [convert_to_images] manages to
    save. *)
Definition saved_pages `{ImageLibrary} (base_name timestamp : string)
    (fmt : string) (dpi : pyval) (first count : Z) : list Z :=
  List.filter
    (λ i, if save_error
               (Converter.image_name base_name i timestamp (Str.lower fmt))
               (Str.upper fmt) dpi is None then true else false)
    (seqZ first count).

(** The entries the sweep removes: regular files other than [.gitkeep],
    modified before the cutoff, that [os.remove] can remove. *)
Definition swept (cutoff : float) (name : string) (e : Cleanup.entry) : bool :=
  match e with
  | Cleanup.Directory => false
  | Cleanup.RegularFile mtime removable =>
      negb (String.eqb name ".gitkeep") && PrimFloat.ltb mtime cutoff
      && removable
  end.


(** How many entries of a directory the sweep removes. *)
Definition swept_count (cutoff : float) (dir : gmap string Cleanup.entry)
  : Z :=
  Z.of_nat (length (List.filter (λ ne, swept cutoff ne.1 ne.2)
                      (map_to_list dir))).


(** How many entries the sweep removes from the listed directories. *)
Definition swept_total (cutoff : float)
    (fs : gmap string (gmap string Cleanup.entry)) (directories : list string)
  : Z :=
  foldr (λ d acc, from_option (swept_count cutoff) 0 (fs !! d) + acc) 0
    directories.

(** [k in d] for a dict with the bindings [kv]. *)
Definition has_key (kv : list (string * pyval)) (k : string) : bool :=
  if PyVal.dict_get kv k is Some _ then true else false.

(** The keys of the six checked fields. *)
Definition field_keys : list string :=
  ParamSpec.field_key <$> ParamSpec.check_order.

(** Why the engine cannot use an input file, if it cannot. *)
Definition input_failure (uploads : gmap string upload) (filename : string)
  : option exn :=
  match uploads !! filename with
  | None => Some (Exn FileNotFoundError ("File not found: " +:+ filename))
  | Some f =>
      match up_content f with
      | Parsed _ => None
      | Unreadable why => Some (Exn PdfReadError (read_error_msg why))
      end
  end.

(** [engine_call now processed processed']: some call of the engine made
    when the clock reads [now] takes the processed zone from [processed] to
    [processed'], whether it returns or raises. *)
Inductive engine_call `{PdfLibrary} (now : datetime)
    (processed processed' : gmap string artifact) : Prop :=
  | call_merge files uploads result :
      PDFProcessor.merge_pdfs files uploads processed now
      = (result, processed') →
      engine_call now processed processed'
  | call_split filename uploads page_range result :
      PDFProcessor.split_pdf filename uploads processed page_range now
      = (result, processed') →
      engine_call now processed processed'
  | call_compress filename uploads quality result :
      PDFProcessor.compress_pdf filename uploads processed quality now
      = (result, processed') →
      engine_call now processed processed'.

(** * Properties *)

(** ** Runs of the model on the scenarios of the specification *)

Example splitext_root_runs :
  OsPath.splitext_root "a.b/report.v2.pdf" = "a.b/report.v2"
  ∧ OsPath.splitext_root "dir/.bashrc" = "dir/.bashrc".
Proof. split; reflexivity. Qed.

Example strftime_runs : strftime demo_now = "20240309_140500".
Proof. reflexivity. Qed.

Example split_scenario :
  (@PDFProcessor.split_pdf demo_library "a.pdf" demo_uploads ∅ pages_2_3
     demo_now).1
  = Return ["a_page_2_20240309_140500.pdf"; "a_page_3_20240309_140500.pdf"].
Proof. vm_compute. reflexivity. Qed.

Example merge_scenario :
  let r := @PDFProcessor.merge_pdfs demo_library ["a.pdf"; "b.pdf"]
             demo_uploads ∅ demo_now in
  r.1 = Return "merged_20240309_140500.pdf"
  ∧ (length ∘ art_pages <$> r.2 !! "merged_20240309_140500.pdf") = Some 5%nat.
Proof. vm_compute. split; reflexivity. Qed.

Example compress_scenario :
  (@PDFProcessor.compress_pdf demo_library "a.pdf" demo_uploads ∅
     (PStr "low") demo_now).1
  = Return ("a_compressed_20240309_140500.pdf", 8%float).
Proof. vm_compute. reflexivity. Qed.

Example validator_runs :
  Validators.validate_operation_params
    (PDict [("file", PStr "a.pdf"); ("dpi", PInt 10); ("quality", PStr "x")])
    ["file"]
  = Return (Validators.failure "DPI must be an integer between 72 and 600")
  ∧ Validators.validate_operation_params (PDict [("dpi", PInt 100)])
      ["file"; "x"]
    = Return (Validators.failure "Missing required parameters: file, x")
  ∧ Validators.validate_pdf_file
      (Some (Validators.FileObject true (Return (PStr "A.PDF")) (Return 200)
               (Return (Parsed [PageObj "x"]))))
    = Return (Validators.failure "File too small. Minimum size: 1024B")
  ∧ Validators.validate_pdf_file
      (Some (Validators.FileObject true (Return (PStr "A.PDF")) (Return 2000)
               (Return (Parsed [PageObj "x"]))))
    = Return (Validators.success_file 2000 1).
Proof. repeat split; reflexivity. Qed.

(** ** Strings *)

Section StringFacts.

Lemma append_cons (x : ascii) (a b : string) :
  String x a +:+ b = String x (a +:+ b).
Proof. reflexivity. Qed.

Lemma append_nil (b : string) : "" +:+ b = b.
Proof. reflexivity. Qed.

Lemma append_assoc (a b c : string) : (a +:+ b) +:+ c = a +:+ (b +:+ c).
Proof.
  induction a as [|x a IH]; [done|].
  by rewrite !append_cons, IH.
Qed.

Lemma length_append (a b : string) :
  String.length (a +:+ b) = (String.length a + String.length b)%nat.
Proof.
  induction a as [|x a IH]; [done|].
  rewrite append_cons. simpl. by rewrite IH.
Qed.

(** Two decompositions of one string with suffixes of one length agree. *)
Lemma append_inj_suffix (a b c d : string) :
  String.length c = String.length d →
  a +:+ c = b +:+ d → a = b ∧ c = d.
Proof.
  intros Hlen. revert b.
  induction a as [|x a IH]; intros [|y b] Heq;
    rewrite ?append_cons, ?append_nil in Heq.
  - done.
  - apply (f_equal String.length) in Heq. simpl in Heq.
    rewrite length_append in Heq. lia.
  - apply (f_equal String.length) in Heq. simpl in Heq.
    rewrite length_append in Heq. lia.
  - injection Heq as -> Heq. destruct (IH _ Heq) as [-> ->]. done.
Qed.

Lemma append_inj_r (a b c : string) : a +:+ c = b +:+ c → a = b.
Proof. intros Heq. by apply (append_inj_suffix a b c c). Qed.

Lemma append_nonempty (a b : string) : a ≠ "" → a +:+ b ≠ "".
Proof. destruct a; [done|]. by rewrite append_cons. Qed.

Lemma digit_inj (a b : N) : digit a = digit b → (a mod 10 = b mod 10)%N.
Proof.
  unfold digit. intros Heq.
  apply (f_equal N_of_ascii) in Heq.
  assert (a mod 10 < 10)%N by (apply N.mod_lt; lia).
  assert (b mod 10 < 10)%N by (apply N.mod_lt; lia).
  rewrite !N_ascii_embedding in Heq by lia. lia.
Qed.

Lemma last_digit_inj (a b : N) :
  (a / 10 = b / 10)%N → (a mod 10 = b mod 10)%N → a = b.
Proof.
  intros Hd Hm.
  rewrite (N.div_mod a 10), (N.div_mod b 10) by lia. by rewrite Hd, Hm.
Qed.

Lemma two_digits_inj (a b : N) :
  (a < 100)%N → (b < 100)%N → two_digits a = two_digits b → a = b.
Proof.
  intros Ha Hb [= H1%digit_inj H0%digit_inj].
  apply last_digit_inj; [|done].
  assert (a / 10 < 10)%N by (apply N.Div0.div_lt_upper_bound; lia).
  assert (b / 10 < 10)%N by (apply N.Div0.div_lt_upper_bound; lia).
  rewrite !N.mod_small in H1 by done. done.
Qed.

Lemma four_digits_inj (a b : N) :
  (a < 10000)%N → (b < 10000)%N → four_digits a = four_digits b → a = b.
Proof.
  intros Ha Hb [= H3%digit_inj H2%digit_inj H1%digit_inj H0%digit_inj].
  assert (a / 1000 < 10)%N by (apply N.Div0.div_lt_upper_bound; lia).
  assert (b / 1000 < 10)%N by (apply N.Div0.div_lt_upper_bound; lia).
  rewrite !N.mod_small in H3 by done.
  apply last_digit_inj; [|done].
  apply last_digit_inj; [|done]. rewrite !N.Div0.div_div. simpl.
  apply last_digit_inj; [|done]. rewrite !N.Div0.div_div. simpl.
  done.
Qed.

(** Clock readings that differ in any field, down to the second, have
    different stamps. *)
Lemma strftime_inj (d1 d2 : datetime) :
  clock_reading d1 → clock_reading d2 → strftime d1 = strftime d2 → d1 = d2.
Proof.
  destruct d1 as [y1 m1 a1 h1 i1 s1], d2 as [y2 m2 a2 h2 i2 s2].
  unfold clock_reading, strftime. simpl.
  intros (? & ? & ? & ? & ? & ?) (? & ? & ? & ? & ? & ?) Heq.
  cbv [four_digits two_digits String.append] in Heq.
  injection Heq as Hy3 Hy2 Hy1 Hy0 Hm1 Hm0 Ha1 Ha0 Hh1 Hh0 Hi1 Hi0 Hs1 Hs0.
  f_equal.
  - apply four_digits_inj; [done..|]. unfold four_digits. congruence.
  - apply two_digits_inj; [done..|]. unfold two_digits. congruence.
  - apply two_digits_inj; [done..|]. unfold two_digits. congruence.
  - apply two_digits_inj; [done..|]. unfold two_digits. congruence.
  - apply two_digits_inj; [done..|]. unfold two_digits. congruence.
  - apply two_digits_inj; [done..|]. unfold two_digits. congruence.
Qed.

Lemma strftime_length (d : datetime) : String.length (strftime d) = 15%nat.
Proof. reflexivity. Qed.

End StringFacts.

(** ** The engine *)

Section EngineFacts.
Context `{PdfLibrary}.
Import PDFProcessor.

Lemma add_pages_app (w : PdfWriter) (ps : list page) :
  add_pages w ps = Writer (w_pages w ++ ps) (w_passes w).
Proof.
  revert w. induction ps as [|p ps IH]; intros [wp wq]; simpl.
  - by rewrite app_nil_r.
  - unfold add_pages in *. simpl. rewrite IH. simpl.
    by rewrite <- app_assoc.
Qed.

Lemma valid_input_pages (uploads : gmap string upload) (filename : string) :
  valid_input uploads filename →
  ∃ f, uploads !! filename = Some f
       ∧ PdfReader f = Return (pages_of uploads filename).
Proof.
  intros (f & ps & Hf & Hc). exists f. split; [done|].
  unfold PdfReader, pages_of. rewrite Hf. destruct f as [sz c].
  simpl in *. by subst c.
Qed.

Lemma merge_loop_valid (uploads : gmap string upload) (files : list string)
    (w : PdfWriter) :
  Forall (valid_input uploads) files →
  merge_loop uploads files w
  = Return (Writer (w_pages w ++ mjoin (pages_of uploads <$> files))
                   (w_passes w)).
Proof.
  intros Hall. revert w.
  induction Hall as [|filename files Hv _ IH]; intros w; simpl.
  - rewrite app_nil_r. by destruct w.
  - destruct (valid_input_pages _ _ Hv) as (f & -> & ->). simpl.
    rewrite IH, add_pages_app. simpl. by rewrite <- app_assoc.
Qed.

(** C2.  Merging valid files writes one output, named by the returned
    filename, whose pages are the pages of the inputs in the order the
    filenames were given; its page count is the sum of theirs.  (The list
    need not even be non-empty for this.) *)
Theorem merge_concatenates_inputs (files : list string)
    (uploads : gmap string upload) (processed : gmap string artifact)
    (now : datetime) :
  Forall (valid_input uploads) files →
  ∃ name art,
    merge_pdfs files uploads processed now
    = (Return name, <[name := art]> processed)
    ∧ art_pages art = mjoin (pages_of uploads <$> files)
    ∧ length (art_pages art)
      = sum_list (length ∘ pages_of uploads <$> files).
Proof.
  intros Hall. unfold merge_pdfs.
  rewrite (merge_loop_valid _ _ _ Hall). simpl.
  eexists _, _. split; [reflexivity|]. simpl. split; [done|].
  by rewrite length_join, list_fmap_compose.
Qed.

Lemma page_name_inj (base ts : string) (i j : Z) :
  page_name base i ts = page_name base j ts → i = j.
Proof.
  unfold page_name. intros Heq.
  do 2 apply String.app_inj in Heq.
  apply append_inj_r in Heq.
  apply (inj pretty) in Heq. lia.
Qed.

Lemma py_index_in_range {A} (l : list A) (k : Z) :
  0 ≤ k < Z.of_nat (length l) →
  ∃ x, l !! Z.to_nat k = Some x ∧ py_index l k = Return x.
Proof.
  intros Hk. destruct (lookup_lt_is_Some_2 l (Z.to_nat k)) as [x Hx]; [lia|].
  exists x. split; [done|]. unfold py_index.
  destruct (Z.ltb_spec k 0) as [?|_]; [lia|].
  destruct (Z.ltb_spec k 0) as [?|_]; [lia|]. by rewrite Hx.
Qed.

(** The loop of [split_pdf] over page indices of the document, none of them
    twice: one file a page, in the order of the indices, each file holding
    that page only, and nothing else of the processed zone touched. *)
Lemma split_loop_in_range (pages : list page) (base ts : string)
    (todo : list Z) (processed : gmap string artifact) (acc : list string) :
  NoDup todo →
  (∀ k, k ∈ todo → 0 ≤ k < Z.of_nat (length pages)) →
  ∃ processed',
    split_loop pages base ts todo processed acc
    = (Return (acc ++ ((λ k, page_name base k ts) <$> todo)), processed')
    ∧ (∀ k, k ∈ todo →
         ∃ pg, pages !! Z.to_nat k = Some pg
               ∧ processed' !! page_name base k ts
                 = Some (write (Writer [pg] [])))
    ∧ (∀ n, (∀ k, k ∈ todo → n ≠ page_name base k ts) →
         processed' !! n = processed !! n).
Proof.
  intros Hnd. revert processed acc.
  induction Hnd as [|k todo Hk Hnd IH]; intros processed acc Hin; simpl.
  - exists processed. rewrite app_nil_r. split; [done|].
    split; [|done]. intros k Hk. by apply elem_of_nil in Hk.
  - destruct (py_index_in_range pages k) as (pg & Hpg & ->).
    { apply Hin. by left. }
    destruct (IH (<[page_name base k ts := write (add_page new_writer pg)]>
                    processed)
                 (acc ++ [page_name base k ts])) as (p' & Hrun & Hall & Hrest).
    { intros j Hj. apply Hin. by right. }
    exists p'. rewrite Hrun, <- app_assoc. split; [done|]. split.
    + intros j [->|Hj]%elem_of_cons; [|by apply Hall].
      exists pg. split; [done|]. rewrite Hrest.
      * by rewrite lookup_insert_eq.
      * intros i Hi Heq. apply page_name_inj in Heq. by subst i.
    + intros n Hn. rewrite Hrest.
      * rewrite lookup_insert_ne; [done|]. intros Heq.
        by apply (Hn k); [left|].
      * intros j Hj. apply Hn. by right.
Qed.

Lemma page_names_one_based (base ts : string) (first count : Z) :
  (λ k, page_name base k ts) <$> seqZ (first - 1) count
  = (λ p, base +:+ "_page_" +:+ pretty p +:+ "_" +:+ ts +:+ ".pdf")
    <$> seqZ first count.
Proof.
  replace first with (1 + (first - 1)) at 2 by lia.
  rewrite <- fmap_add_seqZ, <- list_fmap_compose.
  apply list_fmap_ext. intros _ k _. simpl. unfold page_name.
  by rewrite (Z.add_comm 1 k).
Qed.

(** The outputs of [split_pdf] on a valid file, for a list of page indices
    as the range block computes it. *)
Lemma split_pdf_in_range (filename : string) (uploads : gmap string upload)
    (processed : gmap string artifact) (page_range : pyval) (now : datetime)
    (first count : Z) :
  valid_input uploads filename →
  pages_to_split page_range (Z.of_nat (length (pages_of uploads filename)))
  = Return (seqZ (first - 1) count) →
  1 ≤ first →
  first - 1 + count ≤ Z.of_nat (length (pages_of uploads filename)) →
  let name p :=
    OsPath.splitext_root filename +:+ "_page_" +:+ pretty p +:+ "_"
    +:+ strftime now +:+ ".pdf" in
  ∃ processed',
    split_pdf filename uploads processed page_range now
    = (Return (name <$> seqZ first count), processed')
    ∧ (∀ p, first ≤ p < first + count →
         ∃ pg, pages_of uploads filename !! Z.to_nat (p - 1) = Some pg
               ∧ processed' !! name p = Some (write (Writer [pg] []))).
Proof.
  intros Hv Hrange Hfirst Hlast name. unfold split_pdf.
  destruct (valid_input_pages _ _ Hv) as (f & -> & ->). rewrite Hrange.
  destruct (split_loop_in_range (pages_of uploads filename)
              (OsPath.splitext_root filename) (strftime now)
              (seqZ (first - 1) count) processed [])
    as (p' & Hrun & Hall & _).
  { apply NoDup_seqZ. }
  { intros k Hk%elem_of_seqZ. lia. }
  exists p'. rewrite Hrun. simpl. rewrite page_names_one_based.
  split; [done|]. intros p Hp.
  destruct (Hall (p - 1)) as (pg & Hpg & Hfile).
  { apply elem_of_seqZ. lia. }
  exists pg. split; [done|]. rewrite <- Hfile. unfold name, page_name.
  by replace (p - 1 + 1) with p by lia.
Qed.

Lemma pages_to_split_range (kv : list (string * pyval)) (s e total : Z) :
  PyVal.dict_get kv "start" = Some (PInt s) →
  PyVal.dict_get kv "end" = Some (PInt e) →
  pages_to_split (PDict kv) total
  = Return (seqZ (s - 1) (Z.min e total - s + 1)).
Proof.
  intros Hs He. unfold pages_to_split. simpl.
  destruct kv as [|b kv]; [done|]. simpl in *.
  rewrite Hs, He. simpl. unfold py_range. do 2 f_equal. lia.
Qed.

Lemma pages_to_split_none (total : Z) :
  pages_to_split PNone total = Return (seqZ (1 - 1) total).
Proof.
  unfold pages_to_split, py_range. simpl. do 2 f_equal. lia.
Qed.

(** C1, as amended.  On a valid file and a range [{start, end}] with
    [1 <= start <= end] that starts within the document, [split_pdf] returns
    [min(end, page count) - start + 1] filenames, in ascending page order,
    the file named with the 1-based page number [p] holding page [p] only;
    without a range it returns one such file for each page. *)
Theorem split_one_file_per_page (filename : string)
    (uploads : gmap string upload) (processed : gmap string artifact)
    (kv : list (string * pyval)) (s e : Z) (now : datetime) :
  let pages := pages_of uploads filename in
  let total := Z.of_nat (length pages) in
  let last := Z.min e total in
  let name p :=
    OsPath.splitext_root filename +:+ "_page_" +:+ pretty p +:+ "_"
    +:+ strftime now +:+ ".pdf" in
  valid_input uploads filename →
  PyVal.dict_get kv "start" = Some (PInt s) →
  PyVal.dict_get kv "end" = Some (PInt e) →
  1 ≤ s ≤ e →
  s ≤ total →
  (∃ outputs processed',
      split_pdf filename uploads processed (PDict kv) now
      = (Return outputs, processed')
      ∧ outputs = name <$> seqZ s (last - s + 1)
      ∧ Z.of_nat (length outputs) = last - s + 1
      ∧ ∀ p, s ≤ p ≤ last →
          ∃ pg, pages !! Z.to_nat (p - 1) = Some pg
                ∧ processed' !! name p = Some (write (Writer [pg] [])))
  ∧ (∃ outputs processed',
      split_pdf filename uploads processed PNone now
      = (Return outputs, processed')
      ∧ outputs = name <$> seqZ 1 total
      ∧ Z.of_nat (length outputs) = total
      ∧ ∀ p, 1 ≤ p ≤ total →
          ∃ pg, pages !! Z.to_nat (p - 1) = Some pg
                ∧ processed' !! name p = Some (write (Writer [pg] []))).
Proof.
  intros pages total last name Hv Hs He Hse Hin. split.
  - destruct (split_pdf_in_range filename uploads processed (PDict kv) now
                s (last - s + 1) Hv) as (p' & Hrun & Hall).
    { by apply pages_to_split_range. }
    { lia. }
    { fold pages total. lia. }
    exists (name <$> seqZ s (last - s + 1)), p'.
    split; [exact Hrun|]. split; [done|]. split.
    + rewrite length_fmap, length_seqZ. lia.
    + intros p Hp. apply Hall. lia.
  - destruct (split_pdf_in_range filename uploads processed PNone now
                1 total Hv) as (p' & Hrun & Hall).
    { apply pages_to_split_none. }
    { lia. }
    { fold pages total. lia. }
    exists (name <$> seqZ 1 total), p'.
    split; [exact Hrun|]. split; [done|]. split.
    + rewrite length_fmap, length_seqZ. lia.
    + intros p Hp. apply Hall. lia.
Qed.




(** Every filename the loop of [split_pdf] adds is a [page_name]. *)
Lemma split_loop_names (pages : list page) (base ts : string) (todo : list Z)
    (processed processed' : gmap string artifact) (acc outputs : list string) :
  split_loop pages base ts todo processed acc = (Return outputs, processed') →
  ∀ n, n ∈ outputs → n ∈ acc ∨ ∃ k, n = page_name base k ts.
Proof.
  revert processed acc.
  induction todo as [|k todo IH]; intros processed acc Hrun n Hn; simpl in *.
  - injection Hrun as <- _. by left.
  - destruct (py_index pages k) as [pg|e]; [|done].
    destruct (IH _ _ Hrun n Hn) as [Hacc|Hk]; [|by right].
    apply elem_of_app in Hacc as [Hacc|Hlast]; [by left|].
    apply list_elem_of_singleton in Hlast. right. by exists k.
Qed.

(** Every generated filename ends in the stamp of its call and [.pdf], after
    a tag of the operation. *)
Lemma generated_shape (now : datetime) (name : string) :
  generated now name →
  ∃ tag pre mid,
    tag ∈ operation_tags
    ∧ name = pre +:+ tag +:+ mid +:+ strftime now +:+ ".pdf".
Proof.
  unfold operation_tags.
  intros [files up pr n pr' Hrun
         |filename up pr range outs pr' n Hrun Hin
         |filename up pr q n ratio pr' Hrun].
  - exists "merged_", "", "". split; [set_solver|].
    unfold merge_pdfs in Hrun.
    destruct (merge_loop up files new_writer); [|done].
    by injection Hrun as <- _.
  - unfold split_pdf in Hrun.
    destruct (up !! filename) as [f|]; [|done].
    destruct (PdfReader f) as [pages|]; [|done].
    destruct (pages_to_split _ _) as [todo|]; [|done].
    destruct (split_loop_names _ _ _ _ _ _ _ _ Hrun n Hin) as [Hnil|[k ->]].
    { by apply elem_of_nil in Hnil. }
    exists "_page_", (OsPath.splitext_root filename), (pretty (k + 1) +:+ "_").
    split; [set_solver|]. unfold page_name. by rewrite !append_assoc.
  - exists "_compressed_", (OsPath.splitext_root filename), "".
    split; [set_solver|].
    unfold compress_pdf in Hrun.
    destruct (up !! filename) as [f|]; [|done].
    destruct (PdfReader f) as [pages|]; [|done].
    destruct (compression_ratio _ _); [|done].
    by injection Hrun as <- _ _.
Qed.


End EngineFacts.

Lemma merge_concatenates_inputs_witness :
  Forall (valid_input demo_uploads) ["a.pdf"; "b.pdf"]
  ∧ ∃ name art,
      @PDFProcessor.merge_pdfs demo_library ["a.pdf"; "b.pdf"] demo_uploads ∅
        demo_now
      = (Return name, <[name := art]> ∅)
      ∧ art_pages art = mjoin (pages_of demo_uploads <$> ["a.pdf"; "b.pdf"])
      ∧ length (art_pages art)
        = sum_list (length ∘ pages_of demo_uploads <$> ["a.pdf"; "b.pdf"]).
Proof.
  assert (Forall (valid_input demo_uploads) ["a.pdf"; "b.pdf"]) as Hv.
  { repeat constructor; eexists _, _; split; vm_compute; reflexivity. }
  split; [exact Hv|].
  exact (@merge_concatenates_inputs demo_library _ _ ∅ demo_now Hv).
Defined.

(** ** Failures of the engine carry a description *)

Section Descriptions.
Context `{PdfLibrary}.
Import PDFProcessor.

Lemma described_append (c : exn_class) (a b : string) :
  a ≠ "" → described (Exn c (a +:+ b)).
Proof. intros Ha. unfold described. simpl. by apply append_nonempty. Qed.

Lemma PdfReader_described (f : upload) (e : exn) :
  PdfReader f = Raise e → described e.
Proof.
  unfold PdfReader. destruct (up_content f) as [ps|why]; [done|].
  intros [= <-]. by destruct why.
Qed.

Lemma as_path_described (v : pyval) (e : exn) :
  PyVal.as_path v = Raise e → described e.
Proof. destruct v; intros [= <-]; by apply described_append. Qed.

Lemma int_operand_described (v : pyval) (e : exn) :
  PyVal.int_operand v = Raise e → described e.
Proof.
  unfold PyVal.int_operand. destruct (PyVal.as_int v); [done|].
  intros [= <-]. by apply described_append.
Qed.

Lemma get_described (v : pyval) (k : string) (d : pyval) (e : exn) :
  PyVal.get v k d = Raise e → described e.
Proof. destruct v; intros [= <-]; by apply described_append. Qed.

Lemma py_index_described {A} (l : list A) (i : Z) (e : exn) :
  py_index l i = Raise e → described e.
Proof.
  unfold py_index.
  destruct (if _ <? 0 then None else _); [done|]. by intros [= <-].
Qed.

Lemma merge_loop_described (uploads : gmap string upload)
    (files : list string) (w : PdfWriter) (e : exn) :
  merge_loop uploads files w = Raise e → described e.
Proof.
  revert w. induction files as [|filename files IH]; intros w; simpl; [done|].
  destruct (uploads !! filename) as [f|].
  - destruct (PdfReader f) as [ps|e'] eqn:Hr; simpl.
    + apply IH.
    + intros [= <-]. by apply PdfReader_described in Hr.
  - intros [= <-]. by apply described_append.
Qed.

Lemma merge_pdfs_described (files : list string)
    (uploads : gmap string upload) (processed p' : gmap string artifact)
    (now : datetime) (e : exn) :
  merge_pdfs files uploads processed now = (Raise e, p') → described e.
Proof.
  unfold merge_pdfs.
  destruct (merge_loop uploads files new_writer) as [w|e'] eqn:Hl; [done|].
  intros [= <- _]. by apply merge_loop_described in Hl.
Qed.

Lemma pages_to_split_described (page_range : pyval) (total : Z) (e : exn) :
  pages_to_split page_range total = Raise e → described e.
Proof.
  unfold pages_to_split. destruct (PyVal.truthy page_range); [|done].
  destruct (PyVal.get page_range "start" _) as [s|e1] eqn:H1; simpl;
    [|intros [= <-]; by apply get_described in H1].
  destruct (PyVal.int_operand s) as [s'|e2] eqn:H2; simpl;
    [|intros [= <-]; by apply int_operand_described in H2].
  destruct (PyVal.get page_range "end" _) as [e3|e3] eqn:H3; simpl;
    [|intros [= <-]; by apply get_described in H3].
  destruct (PyVal.int_operand e3) as [e4|e4] eqn:H4; simpl; [done|].
  intros [= <-]. by apply int_operand_described in H4.
Qed.

Lemma split_loop_described (pages : list page) (base ts : string)
    (todo : list Z) (processed p' : gmap string artifact)
    (acc : list string) (e : exn) :
  split_loop pages base ts todo processed acc = (Raise e, p') → described e.
Proof.
  revert processed acc.
  induction todo as [|k todo IH]; intros processed acc; simpl; [done|].
  destruct (py_index pages k) as [pg|e'] eqn:Hi.
  - apply IH.
  - intros [= <- _]. by apply py_index_described in Hi.
Qed.

Lemma split_pdf_described (filename : string) (uploads : gmap string upload)
    (processed p' : gmap string artifact) (page_range : pyval)
    (now : datetime) (e : exn) :
  split_pdf filename uploads processed page_range now = (Raise e, p') →
  described e.
Proof.
  unfold split_pdf. destruct (uploads !! filename) as [f|];
    [|intros [= <- _]; by apply described_append].
  destruct (PdfReader f) as [ps|e1] eqn:Hr;
    [|intros [= <- _]; by apply PdfReader_described in Hr].
  destruct (pages_to_split _ _) as [todo|e2] eqn:Ht;
    [|intros [= <- _]; by apply pages_to_split_described in Ht].
  apply split_loop_described.
Qed.

Lemma compress_pdf_described (filename : string)
    (uploads : gmap string upload) (processed p' : gmap string artifact)
    (quality : pyval) (now : datetime) (e : exn) :
  compress_pdf filename uploads processed quality now = (Raise e, p') →
  described e.
Proof.
  unfold compress_pdf. destruct (uploads !! filename) as [f|];
    [|intros [= <- _]; by apply described_append].
  destruct (PdfReader f) as [ps|e1] eqn:Hr;
    [|intros [= <- _]; by apply PdfReader_described in Hr].
  unfold compression_ratio, py_truediv.
  destruct (_ =? 0); simpl; [|done]. by intros [= <- _].
Qed.

End Descriptions.

(** ** The orchestrator *)

Section ApiFacts.
Context `{PdfLibrary}.

Lemma engine_failure_described (ep : endpoint) (req : Api.request)
    (w : Api.world) (arg : pyval) (e : exn) :
  engine_failure ep req w arg = Some e → described e.
Proof.
  destruct ep; simpl.
  - unfold Api.merge_engine_call, Api.as_file_list.
    assert (∀ l, Api.as_paths l = Raise e → described e) as Hpaths.
    { induction l as [|v l IH]; simpl; [done|].
      destruct (PyVal.as_path v) as [p|e1] eqn:Hp; simpl;
        [|intros [= <-]; by apply as_path_described in Hp].
      destruct (Api.as_paths l) as [ps|e2]; simpl; [done|].
      intros [= <-]. by apply IH. }
    destruct arg as [| | | | |l|]; simpl;
      try (intros [= <-]; by apply described_append).
    destruct (Api.as_paths l) as [files|e1] eqn:Hl; simpl.
    + destruct (PDFProcessor.merge_pdfs _ _ _ _) as [[n|e2] p'] eqn:Hm;
        simpl; [done|].
      intros [= <-]. by apply merge_pdfs_described in Hm.
    + intros [= <-]. by apply Hpaths in Hl.
  - unfold Api.split_engine_call.
    destruct (PyVal.as_path arg) as [filename|e1] eqn:Hp; simpl;
      [|intros [= <-]; by apply as_path_described in Hp].
    destruct (PyVal.get _ "pages" _) as [range|e2] eqn:Hg; simpl;
      [|intros [= <-]; by apply get_described in Hg].
    destruct (PDFProcessor.split_pdf _ _ _ _ _) as [[n|e3] p'] eqn:Hs;
      simpl; [done|].
    intros [= <-]. by apply split_pdf_described in Hs.
  - unfold Api.compress_engine_call.
    destruct (PyVal.as_path arg) as [filename|e1] eqn:Hp; simpl;
      [|intros [= <-]; by apply as_path_described in Hp].
    destruct (PyVal.get _ "quality" _) as [q|e2] eqn:Hg; simpl;
      [|intros [= <-]; by apply get_described in Hg].
    destruct (PDFProcessor.compress_pdf _ _ _ _ _) as [[n|e3] p'] eqn:Hs;
      simpl; [done|].
    intros [= <-]. by apply compress_pdf_described in Hs.
Qed.


(** The three outcomes of the status query, as the code has them. *)
Lemma get_job_status_cases (job_id : Z) (req : Api.request) (w : Api.world) :
  match rows (Api.db w) !! job_id with
  | None =>
      Api.get_job_status job_id req w
      = Api.Response 500 [("error", PStr "Internal server error")]
  | Some job =>
      if user_id job =? Api.current_user req
      then Api.status_code (Api.get_job_status job_id req w) = 200
      else Api.get_job_status job_id req w
           = Api.Response 403 [("error", PStr "Unauthorized")]
  end.
Proof.
  unfold Api.get_job_status, Api.get_job_status_try, Db.get_or_404.
  destruct (rows (Api.db w) !! job_id) as [job|]; simpl; [|done].
  by destruct (user_id job =? Api.current_user req).
Qed.

End ApiFacts.

(** C1, as stated, fails when the range starts beyond the document: on the
    two pages of [b.pdf] the range [{start: 4, end: 5}] gives no output at
    all, which is neither [5 - 4 + 1] files nor [min(5, 2) - 4 + 1]. *)
Lemma split_range_beyond_document :
  ∃ outputs,
    (@PDFProcessor.split_pdf demo_library "b.pdf" demo_uploads ∅
       (PDict [("start", PInt 4); ("end", PInt 5)]) demo_now).1
    = Return outputs
    ∧ Z.of_nat (length outputs) ≠ 5 - 4 + 1
    ∧ Z.of_nat (length outputs) ≠ Z.min 5 2 - 4 + 1.
Proof. exists []. vm_compute. repeat split; congruence. Qed.

Lemma split_one_file_per_page_witness :
  let name p := "a_page_" +:+ pretty p +:+ "_20240309_140500.pdf" in
  (∃ outputs processed',
      @PDFProcessor.split_pdf demo_library "a.pdf" demo_uploads ∅
        (PDict [("start", PInt 2); ("end", PInt 7)]) demo_now
      = (Return outputs, processed')
      ∧ outputs = name <$> seqZ 2 (3 - 2 + 1)
      ∧ Z.of_nat (length outputs) = 3 - 2 + 1
      ∧ ∀ p, 2 ≤ p ≤ 3 →
          ∃ pg, pages_of demo_uploads "a.pdf" !! Z.to_nat (p - 1) = Some pg
                ∧ processed' !! name p
                  = Some (@write demo_library (Writer [pg] [])))
  ∧ (∃ outputs processed',
      @PDFProcessor.split_pdf demo_library "a.pdf" demo_uploads ∅ PNone
        demo_now
      = (Return outputs, processed')
      ∧ outputs = name <$> seqZ 1 3
      ∧ Z.of_nat (length outputs) = 3
      ∧ ∀ p, 1 ≤ p ≤ 3 →
          ∃ pg, pages_of demo_uploads "a.pdf" !! Z.to_nat (p - 1) = Some pg
                ∧ processed' !! name p
                  = Some (@write demo_library (Writer [pg] []))).
Proof.
  apply (@split_one_file_per_page demo_library "a.pdf" demo_uploads ∅
           [("start", PInt 2); ("end", PInt 7)] 2 7 demo_now).
  - eexists _, _. split; vm_compute; reflexivity.
  - reflexivity.
  - reflexivity.
  - lia.
  - vm_compute. congruence.
Defined.




Example compress_may_grow_the_file :
  (@PDFProcessor.compress_pdf demo_library "tiny.pdf" demo_uploads ∅
     (PStr "medium") demo_now).1
  = Return ("tiny_compressed_20240309_140500.pdf", (-1.5625)%float).
Proof. vm_compute. reflexivity. Qed.




(** C3: the status of a job that does not exist.  [get_or_404] raises the
    404 inside the [try:] of the handler, whose [except Exception] turns it
    into the 500 response. *)
Theorem status_of_missing_job :
  Api.get_job_status 3 (Api.Request 7 PNone demo_now) demo_world
  = Api.Response 500 [("error", PStr "Internal server error")].
Proof. reflexivity. Qed.

(** C9: a split whose range starts beyond the two pages of [b.pdf] passes
    validation, and its job ends ['completed'] with an empty list of output
    files. *)
Theorem split_beyond_document_completes_empty :
  let '(resp, w') := @Api.split_pdf demo_library split_beyond_request
                       demo_world in
  Api.status_code resp = 200
  ∧ (λ job, (status job, output_files job, error_message job))
      <$> rows (Api.db w') !! 1
    = Some ("completed", Some [], None).
Proof. vm_compute. split; reflexivity. Qed.

(** ** The validators *)

Section ValidatorFacts.
Import Validators ParamSpec.

Lemma seq_falls_through (k : block) : (falls_through ;;; k) = k.
Proof. reflexivity. Qed.

Lemma bad_filename_spec (v : pyval) : bad_filename v = negb (non_blank_string v).
Proof. destruct v; simpl; by rewrite ?negb_involutive. Qed.

Lemma exists_bad_filename (l : list pyval) :
  existsb bad_filename l = negb (forallb non_blank_string l).
Proof.
  induction l as [|v l IH]; simpl; [done|].
  by rewrite IH, bad_filename_spec, negb_andb.
Qed.

Lemma bad_page_number_spec (kv : list (string * pyval)) (k : string) :
  bad_page_number kv k = negb (positive_if_present kv k).
Proof.
  unfold bad_page_number, positive_if_present.
  destruct (PyVal.dict_get kv k) as [v|]; [|done].
  destruct (PyVal.as_int v) as [z|]; [|done]. apply Z.ltb_antisym.
Qed.

Lemma start_after_end_spec (kv : list (string * pyval)) :
  start_after_end kv = negb (start_le_end kv).
Proof.
  unfold start_after_end, start_le_end.
  destruct (PyVal.dict_get kv "start") as [s|]; [|done].
  destruct (PyVal.dict_get kv "end") as [e|]; [|done].
  destruct (PyVal.as_int s), (PyVal.as_int e); try done.
  apply Z.ltb_antisym.
Qed.

(** A field that does not offend lets its block fall through. *)
Lemma block_of_inoffensive (kv : list (string * pyval)) (f : field) :
  offends kv f = false → block_of f (PDict kv) = falls_through.
Proof.
  unfold offends.
  destruct f; simpl;
    [unfold check_files|unfold check_file|unfold check_pages
    |unfold check_format|unfold check_dpi|unfold check_quality]; simpl;
    (destruct (PyVal.dict_get kv _) as [v|]; simpl; [|done]);
    intros Hok%negb_false_iff.
  - destruct v as [| | | | |l|]; try done.
    apply andb_prop in Hok as [Hne Hall].
    destruct l as [|x l]; [done|].
    by rewrite exists_bad_filename, Hall.
  - by rewrite bad_filename_spec, Hok.
  - destruct v as [| | | | | |pages]; try done.
    apply andb_prop in Hok as [[Hs He]%andb_prop Hle].
    by rewrite !bad_page_number_spec, start_after_end_spec, Hs, He, Hle.
  - destruct v as [| | | |fmt| |]; try done. simpl.
    unfold valid_formats. by rewrite Hok.
  - destruct (PyVal.as_int v) as [z|]; [|done].
    apply andb_prop in Hok as [Hlo Hhi].
    rewrite (Z.ltb_antisym 72 z), (Z.ltb_antisym z 600), Hlo, Hhi. done.
  - destruct v as [| | | |q| |]; try done. simpl.
    unfold valid_qualities. by rewrite Hok.
Qed.

(** A field that offends makes its block return a failure that names it,
    unless the check raises: that happens for [format] and [quality] on a
    value that is not a string, and only then. *)
Lemma block_of_offending (kv : list (string * pyval)) (f : field) :
  offends kv f = true →
  if not_a_string_at kv f
  then ∃ e, block_of f (PDict kv) = Raise e
  else ∃ msg, block_of f (PDict kv) = returns (failure msg)
              ∧ names_field msg f = true.
Proof.
  unfold offends, not_a_string_at.
  destruct f; simpl;
    [unfold check_files|unfold check_file|unfold check_pages
    |unfold check_format|unfold check_dpi|unfold check_quality]; simpl;
    (destruct (PyVal.dict_get kv _) as [v|]; simpl; [|done]);
    intros Hbad%negb_true_iff.
  - destruct v as [| | | | |l|]; try (by eexists).
    destruct l as [|x l]; [by eexists|].
    apply andb_false_iff in Hbad as [Hbad|Hbad]; [done|].
    rewrite exists_bad_filename, Hbad. by eexists.
  - rewrite bad_filename_spec, Hbad. by eexists.
  - destruct v as [| | | | | |pages]; try (by eexists).
    rewrite !bad_page_number_spec, start_after_end_spec.
    destruct (positive_if_present pages "start"); [|by eexists].
    destruct (positive_if_present pages "end"); [|by eexists].
    simpl in Hbad. rewrite Hbad. by eexists.
  - destruct v as [| | | |fmt| |]; try (by eexists). simpl.
    unfold valid_formats. rewrite Hbad. by eexists.
  - destruct (PyVal.as_int v) as [z|]; [|by eexists].
    rewrite (Z.ltb_antisym 72 z), (Z.ltb_antisym z 600).
    apply andb_false_iff in Hbad as [-> | ->]; simpl; [by eexists|].
    rewrite orb_true_r. by eexists.
  - destruct v as [| | | |q| |]; try (by eexists). simpl.
    unfold valid_qualities. rewrite Hbad. by eexists.
Qed.

Lemma missing_params_present (kv : list (string * pyval))
    (required : list string) :
  Forall (λ k, is_Some (PyVal.dict_get kv k)) required →
  missing_params required (PDict kv) = Return [].
Proof.
  induction 1 as [|k required [v Hk] _ IH]; simpl; [done|].
  by rewrite Hk, IH.
Qed.

Lemma preamble_falls_through (kv : list (string * pyval))
    (required : list string) :
  kv ≠ [] →
  Forall (λ k, is_Some (PyVal.dict_get kv k)) required →
  check_data (PDict kv) = falls_through
  ∧ check_required required (PDict kv) = falls_through.
Proof.
  intros Hne Hreq. split.
  - unfold check_data. simpl. by destruct kv.
  - unfold check_required. destruct required as [|k required]; [done|].
    by rewrite missing_params_present.
Qed.


(** When no field offends, the parameters are accepted as they are. *)
Lemma validation_accepts (kv : list (string * pyval)) (required : list string) :
  kv ≠ [] →
  Forall (λ k, is_Some (PyVal.dict_get kv k)) required →
  first_offending kv = None →
  validate_operation_params (PDict kv) required
  = Return (success_data (PDict kv)).
Proof.
  intros Hne Hreq Hfirst.
  destruct (preamble_falls_through kv required Hne Hreq) as [Hdata Hrequired].
  unfold validate_operation_params, operation_params_body.
  rewrite Hdata, Hrequired, !seq_falls_through.
  unfold first_offending, check_order in Hfirst. simpl in Hfirst.
  repeat match type of Hfirst with
  | (if offends kv ?g then _ else _) = _ =>
      destruct (offends kv g) eqn:Hg; [done|];
      apply block_of_inoffensive in Hg; simpl in Hg; rewrite Hg;
      rewrite seq_falls_through; clear Hg
  end.
  done.
Qed.

Lemma well_formed_failure (msg : string) : well_formed (failure msg).
Proof. right. by eauto. Qed.

Lemma well_formed_success_data (d : pyval) : well_formed (success_data d).
Proof. by left. Qed.

Lemma well_formed_success_file (n k : Z) : well_formed (success_file n k).
Proof. by left. Qed.

Lemma sound_seq (b k : block) :
  sound_block b → sound_body k → sound_body (b ;;; k).
Proof. destruct b as [[r|]|e]; simpl; auto. Qed.

Ltac sound_cases :=
  unfold sound_block, sound_body, Py.bind, try_except, returns, falls_through;
  repeat case_match; simplify_eq;
  auto using well_formed_failure, well_formed_success_data,
    well_formed_success_file.

Lemma check_data_sound (d : pyval) : sound_block (check_data d).
Proof. unfold check_data. sound_cases. Qed.

Lemma check_required_sound (required : list string) (d : pyval) :
  sound_block (check_required required d).
Proof. unfold check_required. sound_cases. Qed.

Lemma block_of_sound (f : field) (d : pyval) : sound_block (block_of f d).
Proof.
  destruct f; simpl;
    [unfold check_files|unfold check_file|unfold check_pages
    |unfold check_format|unfold check_dpi|unfold check_quality];
    sound_cases.
Qed.

Lemma operation_params_body_sound (d : pyval) (required : list string) :
  sound_body (operation_params_body d required).
Proof.
  unfold operation_params_body.
  apply sound_seq; [apply check_data_sound|].
  apply sound_seq; [apply check_required_sound|].
  apply sound_seq; [apply (block_of_sound Files)|].
  apply sound_seq; [apply (block_of_sound File)|].
  apply sound_seq; [apply (block_of_sound Pages)|].
  apply sound_seq; [apply (block_of_sound Format)|].
  apply sound_seq; [apply (block_of_sound Dpi)|].
  apply sound_seq; [apply (block_of_sound Quality)|].
  simpl. apply well_formed_success_data.
Qed.

Lemma pdf_file_body_sound (file : option file_object) :
  sound_body (pdf_file_body file).
Proof. unfold pdf_file_body. sound_cases. Qed.

(** A sound body under [try: ... except Exception: return failure] gives
    its caller a well-formed record, whatever happens in it. *)
Lemma guarded_body_total (b : block) (msg : string) :
  sound_body b →
  ∃ r, try_except (finish b) (λ _, Return (failure msg)) = Return r
       ∧ well_formed r.
Proof.
  destruct b as [[r|]|e]; simpl; [by eauto|done|].
  intros _. eexists. split; [done|]. apply well_formed_failure.
Qed.

(** C10.  Both validators return to their caller on every input, a file
    object whose attributes and methods may raise or a parameter value of
    any type, and what they return is a success record or a failure record
    with an error message. *)
Theorem validators_are_total :
  (∀ file : option file_object,
     ∃ r, validate_pdf_file file = Return r ∧ well_formed r)
  ∧ (∀ (d : pyval) (required : list string),
       ∃ r, validate_operation_params d required = Return r ∧ well_formed r).
Proof.
  split.
  - intros file. apply guarded_body_total, pdf_file_body_sound.
  - intros d required. apply guarded_body_total, operation_params_body_sound.
Qed.

End ValidatorFacts.



(** ** More on the engine *)

Section MoreEngineFacts.
Context `{PdfLibrary}.
Import PDFProcessor.

Lemma merge_loop_returns_valid (uploads : gmap string upload)
    (files : list string) (w w' : PdfWriter) :
  merge_loop uploads files w = Return w' → Forall (valid_input uploads) files.
Proof.
  revert w. induction files as [|filename files IH]; intros w; simpl.
  - by constructor.
  - destruct (uploads !! filename) as [f|] eqn:Hf; [|done].
    unfold PdfReader. destruct (up_content f) as [ps|why] eqn:Hc; [|done].
    simpl. intros Hrest. constructor; [by exists f, ps|by eapply IH].
Qed.

(** X1.  [merge_pdfs] returns a filename exactly when every input is in the
    uploads zone and readable. *)
Theorem merge_succeeds_iff_inputs_valid (files : list string)
    (uploads : gmap string upload) (processed : gmap string artifact)
    (now : datetime) :
  (∃ name processed',
      merge_pdfs files uploads processed now = (Return name, processed'))
  ↔ Forall (valid_input uploads) files.
Proof.
  split.
  - intros (name & p' & Hrun). unfold merge_pdfs in Hrun.
    destruct (merge_loop uploads files new_writer) as [w|e] eqn:Hl; [|done].
    by eapply merge_loop_returns_valid.
  - intros Hall. unfold merge_pdfs.
    rewrite (merge_loop_valid _ _ _ Hall). by eauto.
Qed.

Lemma merge_loop_first_bad (uploads : gmap string upload)
    (before after : list string) (filename : string) (w : PdfWriter) :
  Forall (valid_input uploads) before →
  merge_loop uploads (before ++ filename :: after) w
  = match uploads !! filename with
    | None => Raise (file_not_found filename)
    | Some f =>
        let! pages := PdfReader f in
        merge_loop uploads after
          (add_pages (add_pages w (mjoin (pages_of uploads <$> before)))
                     pages)
    end.
Proof.
  intros Hall. revert w.
  induction Hall as [|x before Hv _ IH]; intros w; simpl.
  - by destruct w.
  - destruct (valid_input_pages _ _ Hv) as (f & -> & ->). simpl.
    rewrite IH. destruct (uploads !! filename); [|done].
    by rewrite !add_pages_app, app_assoc.
Qed.

(** X2.  [merge_pdfs] stops at the first input that is missing or
    unreadable: it raises [FileNotFoundError] naming that file, or the
    reader's error for it, and leaves the processed zone as it was. *)
Theorem merge_fails_at_first_bad_input (before after : list string)
    (filename : string) (e : exn) (uploads : gmap string upload)
    (processed : gmap string artifact) (now : datetime) :
  Forall (valid_input uploads) before →
  input_failure uploads filename = Some e →
  merge_pdfs (before ++ filename :: after) uploads processed now
  = (Raise e, processed).
Proof.
  intros Hall Hbad. unfold merge_pdfs.
  rewrite (merge_loop_first_bad _ _ _ _ _ Hall).
  unfold input_failure in Hbad.
  destruct (uploads !! filename) as [f|] eqn:Hf.
  - unfold PdfReader. destruct (up_content f) as [ps|why]; [done|].
    by injection Hbad as <-.
  - by injection Hbad as <-.
Qed.

Lemma int_operand_default (kv : list (string * pyval)) (k : string)
    (d z : Z) :
  match PyVal.dict_get kv k with
  | Some v => PyVal.as_int v
  | None => Some d
  end = Some z →
  PyVal.int_operand (default (PInt d) (PyVal.dict_get kv k)) = Return z.
Proof.
  unfold PyVal.int_operand.
  destruct (PyVal.dict_get kv k) as [v|]; simpl.
  - by intros ->.
  - by intros [= <-].
Qed.

Lemma pages_to_split_mapping (kv : list (string * pyval)) (s e total : Z) :
  range_start kv = Some s →
  range_end kv total = Some e →
  pages_to_split (PDict kv) total
  = Return (seqZ (s - 1) (Z.min e total - s + 1)).
Proof.
  unfold range_start, range_end. intros Hs He.
  destruct kv as [|b kv].
  - simpl in *. injection Hs as <-. injection He as <-.
    unfold pages_to_split, py_range. simpl. do 2 f_equal. lia.
  - unfold pages_to_split. cbn [PyVal.truthy PyVal.get Py.bind].
    rewrite (int_operand_default _ _ _ _ Hs). cbn [Py.bind].
    rewrite (int_operand_default _ _ _ _ He). cbn [Py.bind].
    unfold py_range. do 2 f_equal. lia.
Qed.

(** X3.  On a valid file, for every [pages] mapping whose ['start'] (1 if
    absent) is an integer [>= 1] and whose ['end'] (the page count if absent)
    is an integer, [split_pdf] succeeds and returns the files of the pages
    [start .. min(end, page count)], none at all when that interval is
    empty. *)
Theorem split_any_validated_range (filename : string)
    (uploads : gmap string upload) (processed : gmap string artifact)
    (kv : list (string * pyval)) (s e : Z) (now : datetime) :
  let pages := pages_of uploads filename in
  let total := Z.of_nat (length pages) in
  let last := Z.min e total in
  let name p :=
    OsPath.splitext_root filename +:+ "_page_" +:+ pretty p +:+ "_"
    +:+ strftime now +:+ ".pdf" in
  valid_input uploads filename →
  range_start kv = Some s →
  range_end kv total = Some e →
  1 ≤ s →
  ∃ outputs processed',
    split_pdf filename uploads processed (PDict kv) now
    = (Return outputs, processed')
    ∧ outputs = name <$> seqZ s (last - s + 1)
    ∧ Z.of_nat (length outputs) = Z.max 0 (last - s + 1)
    ∧ ∀ p, s ≤ p ≤ last →
        ∃ pg, pages !! Z.to_nat (p - 1) = Some pg
              ∧ processed' !! name p = Some (write (Writer [pg] [])).
Proof.
  intros pages total last name Hv Hs He Hpos.
  destruct (split_pdf_in_range filename uploads processed (PDict kv) now
              s (last - s + 1) Hv) as (p' & Hrun & Hall).
  { by apply pages_to_split_mapping. }
  { done. }
  { fold pages total. lia. }
  exists (name <$> seqZ s (last - s + 1)), p'.
  split; [exact Hrun|]. split; [done|]. split.
  - rewrite length_fmap, length_seqZ. lia.
  - intros p Hp. apply Hall. lia.
Qed.

Lemma py_index_last {A} (l : list A) (x : A) :
  py_index (l ++ [x]) (-1) = Return x.
Proof.
  unfold py_index. rewrite length_app. simpl.
  destruct (Z.ltb_spec (-1) 0) as [_|?]; [|lia].
  destruct (Z.ltb_spec (Z.of_nat (length l + 1) + -1) 0) as [?|_]; [lia|].
  replace (Z.to_nat (Z.of_nat (length l + 1) + -1)) with (length l) by lia.
  by rewrite list_lookup_middle.
Qed.

(** X4.  Called with ['start': 0], which the validator would refuse,
    [split_pdf] wraps around: page index -1 is the last page of the
    document, and it is written first, under the page number 0, before the
    pages [1 .. min(end, page count)]. *)
Theorem split_from_zero_wraps_around (filename : string) (f : upload)
    (front : list page) (final : page) (uploads : gmap string upload)
    (processed : gmap string artifact) (kv : list (string * pyval))
    (e : Z) (now : datetime) :
  let total := Z.of_nat (length (front ++ [final])) in
  let name p :=
    OsPath.splitext_root filename +:+ "_page_" +:+ pretty p +:+ "_"
    +:+ strftime now +:+ ".pdf" in
  uploads !! filename = Some f →
  up_content f = Parsed (front ++ [final]) →
  range_start kv = Some 0 →
  range_end kv total = Some e →
  0 ≤ e →
  ∃ processed',
    split_pdf filename uploads processed (PDict kv) now
    = (Return (name <$> seqZ 0 (Z.min e total + 1)), processed')
    ∧ processed' !! name 0 = Some (write (Writer [final] [])).
Proof.
  intros total name Hf Hc Hs He Hpos. unfold split_pdf, PdfReader.
  rewrite Hf, Hc. fold total.
  rewrite (pages_to_split_mapping kv 0 e total Hs He).
  replace (Z.min e total - 0 + 1) with (Z.min e total + 1) by lia.
  assert (0 < total) by (unfold total; rewrite length_app; simpl; lia).
  rewrite (seqZ_cons (0 - 1)) by lia. simpl split_loop.
  rewrite py_index_last.
  replace (Z.succ (0 - 1)) with (1 - 1) by lia.
  replace (Z.pred (Z.min e total + 1)) with (Z.min e total) by lia.
  destruct (split_loop_in_range (front ++ [final])
              (OsPath.splitext_root filename) (strftime now)
              (seqZ (1 - 1) (Z.min e total))
              (<[page_name (OsPath.splitext_root filename) (0 - 1)
                   (strftime now) := write (add_page new_writer final)]>
                 processed)
              [page_name (OsPath.splitext_root filename) (0 - 1)
                 (strftime now)])
    as (p' & Hrun & _ & Hrest).
  { apply NoDup_seqZ. }
  { intros k Hk%elem_of_seqZ. fold total. lia. }
  exists p'. rewrite Hrun. split.
  - f_equal. rewrite page_names_one_based.
    rewrite (seqZ_cons 0) by lia. simpl.
    replace (Z.succ 0) with 1 by lia.
    by replace (Z.pred (Z.min e total + 1)) with (Z.min e total) by lia.
  - assert (name 0 = page_name (OsPath.splitext_root filename) (0 - 1)
                       (strftime now)) as -> by done.
    rewrite Hrest; [by rewrite lookup_insert_eq|].
    intros k Hk%elem_of_seqZ Heq. apply page_name_inj in Heq. lia.
Qed.

Lemma split_loop_frame (pages : list page) (base ts : string) (todo : list Z)
    (processed processed' : gmap string artifact) (acc : list string)
    (result : outcome (list string)) :
  split_loop pages base ts todo processed acc = (result, processed') →
  ∀ n, (∀ k, n ≠ page_name base k ts) → processed' !! n = processed !! n.
Proof.
  revert processed acc.
  induction todo as [|k todo IH]; intros processed acc Hrun n Hn; simpl in *.
  - by injection Hrun as _ <-.
  - destruct (py_index pages k) as [pg|e].
    + rewrite (IH _ _ Hrun n Hn). by rewrite lookup_insert_ne.
    + by injection Hrun as _ <-.
Qed.

(** A call of the engine touches only filenames that end in its own stamp. *)
Lemma engine_call_frame (now : datetime)
    (processed processed' : gmap string artifact) (n : string) :
  engine_call now processed processed' →
  (∀ x, n ≠ x +:+ strftime now +:+ ".pdf") →
  processed' !! n = processed !! n.
Proof.
  intros [files up r Hrun|filename up range r Hrun|filename up q r Hrun] Hn.
  - unfold merge_pdfs in Hrun.
    destruct (merge_loop up files new_writer).
    + injection Hrun as _ <-. rewrite lookup_insert_ne; [done|].
      intros Heq. by apply (Hn "merged_").
    + by injection Hrun as _ <-.
  - unfold split_pdf in Hrun.
    destruct (up !! filename) as [f|]; [|by injection Hrun as _ <-].
    destruct (PdfReader f) as [pages|]; [|by injection Hrun as _ <-].
    destruct (pages_to_split _ _) as [todo|]; [|by injection Hrun as _ <-].
    eapply split_loop_frame; [exact Hrun|].
    intros k Heq.
    apply (Hn (OsPath.splitext_root filename +:+ "_page_"
               +:+ pretty (k + 1) +:+ "_")).
    rewrite Heq. unfold page_name. by rewrite !append_assoc.
  - unfold compress_pdf in Hrun.
    destruct (up !! filename) as [f|]; [|by injection Hrun as _ <-].
    destruct (PdfReader f) as [pages|]; [|by injection Hrun as _ <-].
    assert (∀ (a : artifact) (p : gmap string artifact),
              p = <[compressed_name (OsPath.splitext_root filename)
                      (strftime now) := a]> processed →
              p !! n = processed !! n) as Hins.
    { intros a p ->. rewrite lookup_insert_ne; [done|].
      intros Heq.
      apply (Hn (OsPath.splitext_root filename +:+ "_compressed_")).
      rewrite <- Heq. unfold compressed_name. by rewrite !append_assoc. }
    destruct (compression_ratio _ _);
      injection Hrun as _ <-; by eapply Hins.
Qed.

(** X5.  An artifact keeps its place through every call of the engine made
    at another clock reading: a file generated when the clock read [now1]
    is the same before and after any merge, split or compress made at
    [now2], whether that call succeeds or fails. *)
Theorem artifacts_survive_other_seconds (now1 now2 : datetime) (n : string)
    (processed processed' : gmap string artifact) :
  clock_reading now1 →
  clock_reading now2 →
  now1 ≠ now2 →
  generated now1 n →
  engine_call now2 processed processed' →
  processed' !! n = processed !! n.
Proof.
  intros Hc1 Hc2 Hne Hgen Hcall.
  apply (engine_call_frame now2); [done|].
  intros x Heq.
  destruct (generated_shape _ _ Hgen) as (tag & pre & mid & _ & Hshape).
  rewrite Hshape in Heq.
  rewrite <- !(append_assoc _ _ (strftime _ +:+ ".pdf")) in Heq.
  apply append_inj_suffix in Heq as [_ Heq].
  - apply append_inj_r in Heq. apply Hne. by apply strftime_inj.
  - by rewrite !length_append, !strftime_length.
Qed.

End MoreEngineFacts.

Lemma merge_fails_at_first_bad_input_witness :
  @PDFProcessor.merge_pdfs demo_library
    (["a.pdf"] ++ "junk.pdf" :: ["gone.pdf"]) demo_uploads ∅ demo_now
  = (Raise (Exn PdfReadError "EOF marker not found"), ∅).
Proof.
  apply (@merge_fails_at_first_bad_input demo_library ["a.pdf"] ["gone.pdf"]
           "junk.pdf").
  - repeat constructor. eexists _, _. split; vm_compute; reflexivity.
  - vm_compute. reflexivity.
Defined.

Lemma split_any_validated_range_witness :
  let name p := "a_page_" +:+ pretty p +:+ "_20240309_140500.pdf" in
  ∃ outputs processed',
    @PDFProcessor.split_pdf demo_library "a.pdf" demo_uploads ∅
      (PDict [("start", PInt 2)]) demo_now
    = (Return outputs, processed')
    ∧ outputs = name <$> seqZ 2 (3 - 2 + 1)
    ∧ Z.of_nat (length outputs) = Z.max 0 (3 - 2 + 1)
    ∧ ∀ p, 2 ≤ p ≤ 3 →
        ∃ pg, pages_of demo_uploads "a.pdf" !! Z.to_nat (p - 1) = Some pg
              ∧ processed' !! name p
                = Some (@write demo_library (Writer [pg] [])).
Proof.
  apply (@split_any_validated_range demo_library "a.pdf" demo_uploads ∅
           [("start", PInt 2)] 2 3 demo_now).
  - eexists _, _. split; vm_compute; reflexivity.
  - reflexivity.
  - reflexivity.
  - lia.
Defined.

Lemma split_from_zero_wraps_around_witness :
  let name p := "a_page_" +:+ pretty p +:+ "_20240309_140500.pdf" in
  ∃ processed',
    @PDFProcessor.split_pdf demo_library "a.pdf" demo_uploads ∅
      (PDict [("start", PInt 0); ("end", PInt 1)]) demo_now
    = (Return (name <$> seqZ 0 (1 + 1)), processed')
    ∧ processed' !! name 0
      = Some (@write demo_library (Writer [PageObj "a3"] [])).
Proof.
  apply (@split_from_zero_wraps_around demo_library "a.pdf"
           (Upload 2000 (Parsed [PageObj "a1"; PageObj "a2"; PageObj "a3"]))
           [PageObj "a1"; PageObj "a2"] (PageObj "a3") demo_uploads ∅
           [("start", PInt 0); ("end", PInt 1)] 1 demo_now).
  - vm_compute. reflexivity.
  - reflexivity.
  - reflexivity.
  - reflexivity.
  - lia.
Defined.

Lemma artifacts_survive_other_seconds_witness :
  let first :=
    @PDFProcessor.merge_pdfs demo_library ["a.pdf"] demo_uploads ∅ demo_now in
  let second :=
    @PDFProcessor.merge_pdfs demo_library ["b.pdf"] demo_uploads first.2
      demo_later in
  second.2 !! "merged_20240309_140500.pdf"
  = first.2 !! "merged_20240309_140500.pdf".
Proof.
  apply (@artifacts_survive_other_seconds demo_library demo_now demo_later).
  - vm_compute. repeat split; reflexivity.
  - vm_compute. repeat split; reflexivity.
  - discriminate.
  - eapply (@generated_merge demo_library demo_now ["a.pdf"] demo_uploads ∅).
    vm_compute. reflexivity.
  - eapply (@call_merge demo_library demo_later _ _ ["b.pdf"] demo_uploads).
    apply surjective_pairing.
Defined.

(** ** More on the validators *)

Section MoreValidatorFacts.
Import Validators ParamSpec.

Lemma missing_params_dict (kv : list (string * pyval))
    (required : list string) :
  missing_params required (PDict kv)
  = Return (List.filter (λ k, negb (has_key kv k)) required).
Proof.
  induction required as [|k required IH]; simpl; [done|].
  rewrite IH. simpl. unfold has_key.
  by destruct (PyVal.dict_get kv k).
Qed.

Lemma filter_absent_nil (kv : list (string * pyval)) (required : list string) :
  List.filter (λ k, negb (has_key kv k)) required = []
  ↔ Forall (λ k, is_Some (PyVal.dict_get kv k)) required.
Proof.
  unfold has_key. induction required as [|k required IH]; simpl.
  - split; [by constructor|done].
  - destruct (PyVal.dict_get kv k) as [v|] eqn:Hk; simpl.
    + rewrite IH. split.
      * intros Hall. constructor; [by rewrite Hk|done].
      * by intros [_ Hall]%Forall_cons.
    + split; [done|]. intros [[v Hv] _]%Forall_cons. by rewrite Hk in Hv.
Qed.

Lemma missing_keys_fail (kv : list (string * pyval))
    (required : list string) :
  kv ≠ [] →
  List.filter (λ k, negb (has_key kv k)) required ≠ [] →
  validate_operation_params (PDict kv) required
  = Return (failure ("Missing required parameters: "
                     +:+ Str.join ", "
                           (List.filter (λ k, negb (has_key kv k)) required))).
Proof.
  intros Hne Hmissing.
  unfold validate_operation_params, operation_params_body, check_data.
  destruct kv as [|b kv]; [done|]. simpl PyVal.truthy. cbn [negb].
  rewrite seq_falls_through. unfold check_required.
  destruct required as [|k required]; [done|].
  rewrite missing_params_dict. cbn [Py.bind].
  by destruct (List.filter _ _).
Qed.

(** X6.  On a non-empty mapping that lacks required keys the validator
    fails with ['Missing required parameters: '] followed by the missing
    keys, in the order they are required, whatever the other fields hold. *)
Theorem missing_required_keys_reported (kv : list (string * pyval))
    (required : list string) :
  kv ≠ [] →
  List.filter (λ k, negb (has_key kv k)) required ≠ [] →
  validate_operation_params (PDict kv) required
  = Return (failure ("Missing required parameters: "
                     +:+ Str.join ", "
                           (List.filter (λ k, negb (has_key kv k)) required))).
Proof. apply missing_keys_fail. Qed.

Lemma offending_field_fails (kv : list (string * pyval))
    (required : list string) (f : field) :
  Forall (λ k, is_Some (PyVal.dict_get kv k)) required →
  first_offending kv = Some f →
  ∃ msg, validate_operation_params (PDict kv) required = Return (failure msg).
Proof.
  intros Hreq Hfirst.
  assert (kv ≠ []) as Hne by (by intros ->).
  destruct (preamble_falls_through kv required Hne Hreq) as [Hdata Hrequired].
  unfold validate_operation_params, operation_params_body.
  rewrite Hdata, Hrequired, !seq_falls_through.
  unfold first_offending, check_order in Hfirst. simpl in Hfirst.
  repeat match type of Hfirst with
  | (if offends kv ?g then _ else _) = _ =>
      destruct (offends kv g) eqn:Hg;
        [ clear Hfirst
        | apply block_of_inoffensive in Hg; simpl in Hg; rewrite Hg;
          rewrite seq_falls_through; clear Hg ]
  end; try done;
  apply block_of_offending in Hg; simpl block_of in *;
  (destruct (not_a_string_at kv _);
   [ destruct Hg as [e ->]; by eexists
   | destruct Hg as (msg & -> & Hname); by exists msg ]).
Qed.

Lemma accepted_mapping_inv (kv : list (string * pyval))
    (required : list string) (r : result) :
  validate_operation_params (PDict kv) required = Return r →
  valid r = true →
  kv ≠ []
  ∧ Forall (λ k, is_Some (PyVal.dict_get kv k)) required
  ∧ first_offending kv = None.
Proof.
  intros Hrun Hvalid.
  destruct kv as [|b kv].
  { unfold validate_operation_params in Hrun. simpl in Hrun.
    injection Hrun as <-. done. }
  destruct (List.filter (λ k, negb (has_key (b :: kv) k)) required)
    as [|k missing] eqn:Hmissing.
  - apply filter_absent_nil in Hmissing.
    destruct (first_offending (b :: kv)) as [f|] eqn:Hfirst; [|done].
    destruct (offending_field_fails _ _ _ Hmissing Hfirst) as [msg Hfail].
    rewrite Hfail in Hrun. injection Hrun as <-. done.
  - rewrite missing_keys_fail in Hrun; [|done|by rewrite Hmissing].
    injection Hrun as <-. done.
Qed.


(** On a string or an array, the check of a field either finds its key
    "in" the value and then fails to subscript it, or falls through. *)
Lemma block_of_sequence (f : field) (d : pyval) :
  match d with PStr _ | PList _ => True | _ => False end →
  ∃ b e,
    PyVal.contains (field_key f) d = Return b
    ∧ block_of f d = if b then Raise e else falls_through.
Proof.
  destruct d as [| | | |str|l|]; try done; intros _;
    destruct f; simpl;
    [unfold check_files|unfold check_file|unfold check_pages
    |unfold check_format|unfold check_dpi|unfold check_quality
    |unfold check_files|unfold check_file|unfold check_pages
    |unfold check_format|unfold check_dpi|unfold check_quality];
    cbn [PyVal.contains Py.bind];
    match goal with
    | |- context [Return ?b = Return _] =>
        destruct b; cbn [PyVal.getitem Py.bind];
        [ eexists true, _ | exists false, (Exn TypeError "") ];
        split; reflexivity
    end.
Qed.

Lemma non_object_fails (d : pyval) (k : string) :
  k ∈ field_keys →
  (∀ kv, d ≠ PDict kv) →
  ∃ msg, validate_operation_params d [k] = Return (failure msg).
Proof.
  intros Hk Hd.
  assert (∃ f, k = field_key f) as [f ->].
  { unfold field_keys in Hk. apply list_elem_of_fmap in Hk as (f & -> & _).
    by exists f. }
  unfold validate_operation_params, operation_params_body, check_data.
  destruct (PyVal.truthy d) eqn:Htruthy; [|by eexists].
  cbn [negb]. rewrite seq_falls_through.
  unfold check_required. cbn [missing_params].
  destruct d as [|b|z|x|str|l|kv];
    [done| | | | | |by destruct (Hd kv)]; try (by eexists).
  - pose proof (block_of_sequence Files (PStr str) I) as (b1 & e1 & Hc1 & Hb1).
    pose proof (block_of_sequence File (PStr str) I) as (b2 & e2 & Hc2 & Hb2).
    pose proof (block_of_sequence Pages (PStr str) I) as (b3 & e3 & Hc3 & Hb3).
    pose proof (block_of_sequence Format (PStr str) I)
      as (b4 & e4 & Hc4 & Hb4).
    pose proof (block_of_sequence Dpi (PStr str) I) as (b5 & e5 & Hc5 & Hb5).
    pose proof (block_of_sequence Quality (PStr str) I)
      as (b6 & e6 & Hc6 & Hb6).
    simpl block_of in *. rewrite Hb1, Hb2, Hb3, Hb4, Hb5, Hb6.
    destruct f; simpl field_key in *;
      [rewrite Hc1|rewrite Hc2|rewrite Hc3|rewrite Hc4|rewrite Hc5
      |rewrite Hc6];
      destruct b1, b2, b3, b4, b5, b6; by eexists.
  - pose proof (block_of_sequence Files (PList l) I) as (b1 & e1 & Hc1 & Hb1).
    pose proof (block_of_sequence File (PList l) I) as (b2 & e2 & Hc2 & Hb2).
    pose proof (block_of_sequence Pages (PList l) I) as (b3 & e3 & Hc3 & Hb3).
    pose proof (block_of_sequence Format (PList l) I)
      as (b4 & e4 & Hc4 & Hb4).
    pose proof (block_of_sequence Dpi (PList l) I) as (b5 & e5 & Hc5 & Hb5).
    pose proof (block_of_sequence Quality (PList l) I)
      as (b6 & e6 & Hc6 & Hb6).
    simpl block_of in *. rewrite Hb1, Hb2, Hb3, Hb4, Hb5, Hb6.
    destruct f; simpl field_key in *;
      [rewrite Hc1|rewrite Hc2|rewrite Hc3|rewrite Hc4|rewrite Hc5
      |rewrite Hc6];
      destruct b1, b2, b3, b4, b5, b6; by eexists.
Qed.

(** X8.  When a field key is required, as on every job endpoint, a body
    that is not a JSON object is never accepted: [null], numbers, strings
    and arrays all come back as failures. *)
Theorem non_object_body_rejected (d : pyval) (k : string) :
  k ∈ field_keys →
  (∀ kv, d ≠ PDict kv) →
  ∃ msg, validate_operation_params d [k] = Return (failure msg).
Proof. apply non_object_fails. Qed.

Lemma pdf_name_not_empty (s : string) :
  Str.endswith (Str.lower s) ".pdf" = true → PyVal.truthy (PStr s) = true.
Proof. by destruct s. Qed.

Lemma accepted_upload_validates (file : file_object) (s : string) (n : Z)
    (pg : page) (pages : list page) :
  fo_truthy file = true →
  fo_filename file = Return (PStr s) →
  Str.endswith (Str.lower s) ".pdf" = true →
  fo_tell file = Return n →
  MIN_FILE_SIZE ≤ n ≤ MAX_FILE_SIZE →
  fo_read file = Return (Parsed (pg :: pages)) →
  validate_pdf_file (Some file)
  = Return (success_file n (Z.of_nat (length (pg :: pages)))).
Proof.
  intros Ht Hf Hend Hn [Hmin Hmax] Hr. unfold validate_pdf_file, pdf_file_body.
  rewrite Ht, Hf. cbn [negb Py.bind PyVal.lower].
  rewrite (pdf_name_not_empty s Hend), Hend, Hn, Hr. cbn [negb Py.bind].
  destruct (Z.ltb_spec MAX_FILE_SIZE n) as [?|_]; [lia|].
  destruct (Z.ltb_spec n MIN_FILE_SIZE) as [?|_]; [lia|].
  reflexivity.
Qed.

Lemma size_limit_failure (file : file_object) (s : string) (n : Z) :
  fo_truthy file = true →
  fo_filename file = Return (PStr s) →
  Str.endswith (Str.lower s) ".pdf" = true →
  fo_tell file = Return n →
  n < MIN_FILE_SIZE ∨ MAX_FILE_SIZE < n →
  validate_pdf_file (Some file)
  = Return (failure (if n <? MIN_FILE_SIZE
                     then "File too small. Minimum size: 1024B"
                     else "File too large. Maximum size: 50MB")).
Proof.
  intros Ht Hf Hend Hn Hsize. unfold validate_pdf_file, pdf_file_body.
  rewrite Ht, Hf. cbn [negb Py.bind PyVal.lower].
  rewrite (pdf_name_not_empty s Hend), Hend, Hn. cbn [negb Py.bind].
  unfold MAX_FILE_SIZE, MIN_FILE_SIZE in *.
  destruct (Z.ltb_spec (50 * 1024 * 1024) n) as [Hbig|Hbig];
    destruct (Z.ltb_spec n 1024) as [Hsmall|Hsmall]; try lia; reflexivity.
Qed.

(** X9.  [validate_pdf_file] accepts a file object exactly when it is
    truthy, its filename is a string ending in [.pdf] in any letter case,
    its size lies in [1024, 50 MiB], and its content reads as a PDF with at
    least one page; the record it returns carries that size and the page
    count. *)
Theorem upload_validation_accepts_iff (file : file_object) (n k : Z) :
  validate_pdf_file (Some file) = Return (success_file n k)
  ↔ fo_truthy file = true
    ∧ (∃ s, fo_filename file = Return (PStr s)
            ∧ Str.endswith (Str.lower s) ".pdf" = true)
    ∧ fo_tell file = Return n
    ∧ MIN_FILE_SIZE ≤ n ≤ MAX_FILE_SIZE
    ∧ ∃ pg pages, fo_read file = Return (Parsed (pg :: pages))
                  ∧ k = Z.of_nat (length (pg :: pages)).
Proof.
  unfold validate_pdf_file, pdf_file_body. split.
  - destruct (fo_truthy file); cbn [negb]; [|done].
    destruct (fo_filename file) as [fn|e]; cbn [Py.bind]; [|done].
    destruct (PyVal.truthy fn); cbn [negb]; [|done].
    destruct fn as [| | | |s| |]; try done. cbn [PyVal.lower Py.bind].
    destruct (Str.endswith (Str.lower s) ".pdf") eqn:Hend; cbn [negb];
      [|done].
    destruct (fo_tell file) as [m|e]; cbn [Py.bind]; [|done].
    destruct (Z.ltb_spec MAX_FILE_SIZE m) as [?|Hmax]; [done|].
    destruct (Z.ltb_spec m MIN_FILE_SIZE) as [?|Hmin]; [done|].
    destruct (fo_read file) as [c|e]; cbn [Py.bind try_except]; [|done].
    unfold PdfReader. cbn [up_content].
    destruct c as [[|pg pages]|why]; cbn [Py.bind try_except finish returns];
      try done.
    intros [= <- <-]. repeat split; try done; by eauto.
  - intros (Ht & (s & Hf & Hend) & Hn & Hsize & pg & pages & Hr & ->).
    by apply (accepted_upload_validates file s).
Qed.

(** X10.  A file object with a [.pdf] name whose size is out of bounds is
    refused on its size alone, with the limit in the message; its content is
    not consulted, so an unreadable one gets the same answer. *)
Theorem upload_size_limits (file : file_object) (s : string) (n : Z) :
  fo_truthy file = true →
  fo_filename file = Return (PStr s) →
  Str.endswith (Str.lower s) ".pdf" = true →
  fo_tell file = Return n →
  n < MIN_FILE_SIZE ∨ MAX_FILE_SIZE < n →
  validate_pdf_file (Some file)
  = Return (failure (if n <? MIN_FILE_SIZE
                     then "File too small. Minimum size: 1024B"
                     else "File too large. Maximum size: 50MB")).
Proof. apply size_limit_failure. Qed.

End MoreValidatorFacts.

(** ** More on the orchestrator *)

Section MoreApiFacts.
Context `{PdfLibrary}.
Import ParamSpec.

Lemma gate_open_inv (d : pyval) (required : list string) :
  Api.validation_gate d required = Return None →
  ∃ r, Validators.validate_operation_params d required = Return r
       ∧ Validators.valid r = true.
Proof.
  unfold Api.validation_gate.
  destruct (Validators.validate_operation_params d required) as [r|e];
    [|done].
  cbn [Py.bind]. destruct (Validators.valid r) eqn:Hv; cbn [negb].
  - intros _. by exists r.
  - by destruct (Validators.error r).
Qed.

Lemma gate_open_mapping (d : pyval) (k : string) :
  k ∈ field_keys →
  Api.validation_gate d [k] = Return None →
  ∃ kv v, d = PDict kv
          ∧ PyVal.dict_get kv k = Some v
          ∧ first_offending kv = None.
Proof.
  intros Hk (r & Hrun & Hvalid)%gate_open_inv.
  destruct d as [| | | | | |kv];
    try (match type of Hrun with
         | Validators.validate_operation_params ?d _ = _ =>
             destruct (non_object_fails d k Hk) as [msg Hfail]; [done|]
         end;
         rewrite Hfail in Hrun; injection Hrun as <-; discriminate Hvalid).
  destruct (accepted_mapping_inv _ _ _ Hrun Hvalid) as (_ & Hreq & Hnone).
  apply Forall_cons in Hreq as [[v Hv] _]. by exists kv, v.
Qed.

Lemma required_param_is_field (ep : endpoint) :
  required_param ep ∈ field_keys.
Proof. destruct ep; unfold field_keys; simpl; set_solver. Qed.

(** X11.  A request that the validator refuses is answered with status 400
    and the validator's message; its handler creates no job and writes no
    file. *)
Theorem rejected_request_changes_nothing (ep : endpoint) (req : Api.request)
    (w : Api.world) (r : Validators.result) (msg : string) :
  Validators.validate_operation_params (Api.json req) [required_param ep]
  = Return r →
  Validators.valid r = false →
  Validators.error r = Some msg →
  handler ep req w = (Api.Response 400 [("error", PStr msg)], w).
Proof.
  intros Hrun Hvalid Herror.
  assert (Api.validation_gate (Api.json req) [required_param ep]
          = Return (Some (Api.error_response msg 400))) as Hgate.
  { unfold Api.validation_gate. rewrite Hrun. cbn [Py.bind].
    by rewrite Hvalid, Herror. }
  destruct ep; simpl in *.
  - unfold Api.merge_pdfs, Api.merge_pdfs_try. by rewrite Hgate.
  - unfold Api.split_pdf, Api.split_pdf_try. by rewrite Hgate.
  - unfold Api.compress_pdf, Api.compress_pdf_try. by rewrite Hgate.
Qed.

(** X12.  When the request passes validation and the engine call of its
    handler returns, the caller gets status 200 with the id of the job, and
    the row created for the request ends ['completed'], owned by the caller,
    with the filenames the engine returned, a completion time and no error
    message. *)
Theorem engine_success_recorded (ep : endpoint) (req : Api.request)
    (w : Api.world) (arg : pyval) (outs : list string) :
  Api.validation_gate (Api.json req) [required_param ep] = Return None →
  PyVal.getitem (Api.json req) (required_param ep) = Return arg →
  engine_outputs ep req w arg = Some outs →
  let '(resp, w') := handler ep req w in
  Api.status_code resp = 200
  ∧ PyVal.dict_get (Api.body resp) "job_id"
    = Some (PInt (next_id (Api.db w)))
  ∧ ∃ job,
      rows (Api.db w') !! next_id (Api.db w) = Some job
      ∧ user_id job = Api.current_user req
      ∧ operation job = operation_name ep
      ∧ input_files job = job_inputs ep arg
      ∧ status job = "completed"
      ∧ output_files job = Some outs
      ∧ completed_at job = Some (Api.now req)
      ∧ error_message job = None.
Proof.
  intros Hgate Harg Houts.
  destruct ep; simpl in *.
  - unfold Api.merge_pdfs, Api.merge_pdfs_try. rewrite Hgate, Harg. simpl.
    destruct (Api.merge_engine_call req w arg) as [[n|e'] p']; [|done].
    simpl in Houts. injection Houts as <-. simpl.
    do 2 (split; [done|]). eexists. rewrite lookup_insert_eq.
    by repeat split.
  - unfold Api.split_pdf, Api.split_pdf_try. rewrite Hgate, Harg. simpl.
    destruct (Api.split_engine_call req w arg) as [[n|e'] p']; [|done].
    simpl in Houts. injection Houts as <-. simpl.
    do 2 (split; [done|]). eexists. rewrite lookup_insert_eq.
    by repeat split.
  - unfold Api.compress_pdf, Api.compress_pdf_try. rewrite Hgate, Harg. simpl.
    destruct (Api.compress_engine_call req w arg) as [[[n ratio]|e'] p'];
      [|done].
    simpl in Houts. injection Houts as <-. simpl.
    do 2 (split; [done|]). eexists. rewrite lookup_insert_eq.
    by repeat split.
Qed.

Ltac handler_paths ep req w :=
  destruct ep; simpl;
  [ unfold Api.merge_pdfs, Api.merge_pdfs_try
  | unfold Api.split_pdf, Api.split_pdf_try
  | unfold Api.compress_pdf, Api.compress_pdf_try ];
  (destruct (Api.validation_gate _ _) as [[resp|]|e] eqn:Hgate; simpl;
   [ | destruct (PyVal.getitem _ _) as [arg|e] eqn:Harg; simpl | ]).

Lemma handler_keeps_rows (ep : endpoint) (req : Api.request) (w : Api.world)
    (i : Z) :
  i ≠ next_id (Api.db w) →
  rows (Api.db (handler ep req w).2) !! i = rows (Api.db w) !! i.
Proof.
  intros Hi. handler_paths ep req w; try done.
  - destruct (Api.merge_engine_call req w arg) as [[n|e'] p']; simpl;
      by rewrite !lookup_insert_ne.
  - destruct (Api.split_engine_call req w arg) as [[n|e'] p']; simpl;
      by rewrite !lookup_insert_ne.
  - destruct (Api.compress_engine_call req w arg) as [[[n ratio]|e'] p'];
      simpl; by rewrite !lookup_insert_ne.
Qed.


Lemma no_offending_field (kv : list (string * pyval)) (f : field) :
  first_offending kv = None → offends kv f = false.
Proof.
  unfold first_offending, check_order. simpl.
  destruct (offends kv Files) eqn:H1; [done|].
  destruct (offends kv File) eqn:H2; [done|].
  destruct (offends kv Pages) eqn:H3; [done|].
  destruct (offends kv Format) eqn:H4; [done|].
  destruct (offends kv Dpi) eqn:H5; [done|].
  destruct (offends kv Quality) eqn:H6; [done|].
  by destruct f.
Qed.

(** What validation makes of the required parameter of an endpoint. *)
Lemma validated_argument (ep : endpoint) (d arg : pyval) :
  Api.validation_gate d [required_param ep] = Return None →
  PyVal.getitem d (required_param ep) = Return arg →
  ∃ kv, d = PDict kv
        ∧ first_offending kv = None
        ∧ PyVal.dict_get kv (required_param ep) = Some arg
        ∧ match ep with
          | Merge =>
              ∃ x l, arg = PList (x :: l)
                     ∧ forallb non_blank_string (x :: l) = true
          | Split | Compress => ∃ s, arg = PStr s
          end.
Proof.
  intros Hgate Harg.
  destruct (gate_open_mapping _ _ (required_param_is_field ep) Hgate)
    as (kv & v & -> & Hv & Hnone).
  simpl in Harg. rewrite Hv in Harg. injection Harg as <-.
  exists kv. do 3 (split; [done|]).
  destruct ep; simpl in *.
  - pose proof (no_offending_field kv Files Hnone) as Hok.
    unfold offends in Hok. simpl in Hok. rewrite Hv in Hok.
    apply negb_false_iff in Hok. simpl in Hok.
    destruct v as [| | | | |[|x l]|]; try done.
    apply andb_prop in Hok as [_ Hall]. by exists x, l.
  - pose proof (no_offending_field kv File Hnone) as Hok.
    unfold offends in Hok. simpl in Hok. rewrite Hv in Hok.
    apply negb_false_iff in Hok. destruct v; try done. by eexists.
  - pose proof (no_offending_field kv File Hnone) as Hok.
    unfold offends in Hok. simpl in Hok. rewrite Hv in Hok.
    apply negb_false_iff in Hok. destruct v; try done. by eexists.
Qed.

Lemma handler_success_row (ep : endpoint) (req : Api.request) (w : Api.world)
    (arg : pyval) (outs : list string) :
  Api.validation_gate (Api.json req) [required_param ep] = Return None →
  PyVal.getitem (Api.json req) (required_param ep) = Return arg →
  engine_outputs ep req w arg = Some outs →
  rows (Api.db (handler ep req w).2) !! next_id (Api.db w)
  = Some (Api.completed
            (Api.new_job req (operation_name ep) (job_inputs ep arg)
               (next_id (Api.db w)))
            outs (Api.now req)).
Proof.
  intros Hgate Harg Houts.
  destruct ep; simpl in *.
  - unfold Api.merge_pdfs, Api.merge_pdfs_try. rewrite Hgate, Harg. simpl.
    destruct (Api.merge_engine_call req w arg) as [[n|e'] p']; [|done].
    simpl in Houts. injection Houts as <-. simpl.
    by rewrite lookup_insert_eq.
  - unfold Api.split_pdf, Api.split_pdf_try. rewrite Hgate, Harg. simpl.
    destruct (Api.split_engine_call req w arg) as [[n|e'] p']; [|done].
    simpl in Houts. injection Houts as <-. simpl.
    by rewrite lookup_insert_eq.
  - unfold Api.compress_pdf, Api.compress_pdf_try. rewrite Hgate, Harg. simpl.
    destruct (Api.compress_engine_call req w arg) as [[[n ratio]|e'] p'];
      [|done].
    simpl in Houts. injection Houts as <-. simpl.
    by rewrite lookup_insert_eq.
Qed.

Lemma handler_failure_row (ep : endpoint) (req : Api.request) (w : Api.world)
    (arg : pyval) (e : exn) :
  Api.validation_gate (Api.json req) [required_param ep] = Return None →
  PyVal.getitem (Api.json req) (required_param ep) = Return arg →
  engine_failure ep req w arg = Some e →
  rows (Api.db (handler ep req w).2) !! next_id (Api.db w)
  = Some (Api.failed
            (Api.new_job req (operation_name ep) (job_inputs ep arg)
               (next_id (Api.db w)))
            e).
Proof.
  intros Hgate Harg Hfail.
  destruct ep; simpl in *.
  - unfold Api.merge_pdfs, Api.merge_pdfs_try. rewrite Hgate, Harg. simpl.
    destruct (Api.merge_engine_call req w arg) as [[n|e'] p']; [done|].
    simpl in Hfail. injection Hfail as ->. simpl.
    by rewrite lookup_insert_eq.
  - unfold Api.split_pdf, Api.split_pdf_try. rewrite Hgate, Harg. simpl.
    destruct (Api.split_engine_call req w arg) as [[n|e'] p']; [done|].
    simpl in Hfail. injection Hfail as ->. simpl.
    by rewrite lookup_insert_eq.
  - unfold Api.compress_pdf, Api.compress_pdf_try. rewrite Hgate, Harg. simpl.
    destruct (Api.compress_engine_call req w arg) as [[[n ratio]|e'] p'];
      [done|].
    simpl in Hfail. injection Hfail as ->. simpl.
    by rewrite lookup_insert_eq.
Qed.

(** X14.  After a request whose engine call returned, the status query for
    the new job answers its owner with the job as completed, with its
    creation and completion times and the output filenames, and answers
    anyone else with 403. *)
Theorem completed_job_status (ep : endpoint) (req who : Api.request)
    (w : Api.world) (arg : pyval) (outs : list string) :
  Api.validation_gate (Api.json req) [required_param ep] = Return None →
  PyVal.getitem (Api.json req) (required_param ep) = Return arg →
  engine_outputs ep req w arg = Some outs →
  Api.get_job_status (next_id (Api.db w)) who (handler ep req w).2
  = if Api.current_user req =? Api.current_user who
    then Api.Response 200
           [("job_id", PInt (next_id (Api.db w)));
            ("operation", PStr (operation_name ep));
            ("status", PStr "completed");
            ("created_at", PStr (Api.isoformat (Api.now req)));
            ("completed_at", PStr (Api.isoformat (Api.now req)));
            ("output_files", PList (PStr <$> outs))]
    else Api.Response 403 [("error", PStr "Unauthorized")].
Proof.
  intros Hgate Harg Houts.
  unfold Api.get_job_status, Api.get_job_status_try, Db.get_or_404.
  rewrite (handler_success_row _ _ _ _ _ Hgate Harg Houts).
  unfold Api.completed, Api.new_job.
  cbn [Py.bind id user_id operation input_files output_files status
       error_message created_at completed_at].
  by destruct (Api.current_user req =? Api.current_user who).
Qed.

(** X15.  After a request whose engine call failed with [e], the status
    query answers the owner with the job as failed and [str(e)] as error,
    without completion time and without output files. *)
Theorem failed_job_status (ep : endpoint) (req who : Api.request)
    (w : Api.world) (arg : pyval) (e : exn) :
  Api.validation_gate (Api.json req) [required_param ep] = Return None →
  PyVal.getitem (Api.json req) (required_param ep) = Return arg →
  engine_failure ep req w arg = Some e →
  Api.current_user who = Api.current_user req →
  Api.get_job_status (next_id (Api.db w)) who (handler ep req w).2
  = Api.Response 200
      [("job_id", PInt (next_id (Api.db w)));
       ("operation", PStr (operation_name ep));
       ("status", PStr "failed");
       ("created_at", PStr (Api.isoformat (Api.now req)));
       ("error", PStr (str e))].
Proof.
  intros Hgate Harg Hfail Hwho.
  pose proof (engine_failure_described _ _ _ _ _ Hfail) as Hdesc.
  unfold Api.get_job_status, Api.get_job_status_try, Db.get_or_404.
  rewrite (handler_failure_row _ _ _ _ _ Hgate Harg Hfail).
  unfold Api.failed, Api.new_job.
  cbn [Py.bind id user_id operation input_files output_files status
       error_message created_at completed_at].
  rewrite Hwho, Z.eqb_refl.
  apply String.eqb_neq in Hdesc. rewrite Hdesc. reflexivity.
Qed.

(** X16.  The handlers keep the ledger settled: if every job has inputs and
    is either completed with its outputs (at least one unless it is a
    split) or failed with a message and no outputs, then so is every job
    after a merge, split or compress request, whatever the request. *)
Theorem handlers_keep_jobs_settled (ep : endpoint) (req : Api.request)
    (w : Api.world) :
  (∀ i j, rows (Api.db w) !! i = Some j → job_settled j) →
  ∀ i j, rows (Api.db (handler ep req w).2) !! i = Some j → job_settled j.
Proof.
  intros Hinv i j.
  destruct (Api.validation_gate (Api.json req) [required_param ep])
    as [[resp|]|e0] eqn:Hgate.
  - destruct ep; simpl in *;
      [ unfold Api.merge_pdfs, Api.merge_pdfs_try
      | unfold Api.split_pdf, Api.split_pdf_try
      | unfold Api.compress_pdf, Api.compress_pdf_try ];
      rewrite Hgate; simpl; apply Hinv.
  - destruct (PyVal.getitem (Api.json req) (required_param ep))
      as [arg|e1] eqn:Harg.
    2:{ destruct ep; simpl in *;
          [ unfold Api.merge_pdfs, Api.merge_pdfs_try
          | unfold Api.split_pdf, Api.split_pdf_try
          | unfold Api.compress_pdf, Api.compress_pdf_try ];
          rewrite Hgate, Harg; simpl; apply Hinv. }
    assert (∃ l, job_inputs ep arg = PList l ∧ l ≠ []) as Hinputs.
    { destruct (validated_argument _ _ _ Hgate Harg) as (kv & _ & _ & _ & Hshape).
      destruct ep; simpl in *.
      - destruct Hshape as (x & l & -> & _). by eexists.
      - by eexists.
      - by eexists. }
    destruct (decide (i = next_id (Api.db w))) as [->|Hi].
    + destruct (engine_failure ep req w arg) as [e|] eqn:Hfail.
      * rewrite (handler_failure_row _ _ _ _ _ Hgate Harg Hfail).
        intros [= <-]. split; [done|]. right. simpl.
        do 2 (split; [done|]). exists (str e). split; [done|].
        by apply (engine_failure_described _ _ _ _ _ Hfail).
      * assert (∃ outs, engine_outputs ep req w arg = Some outs
                        ∧ (operation_name ep ≠ "split" → outs ≠ []))
          as (outs & Houts & Hne).
        { destruct ep; simpl in *.
          - destruct (Api.merge_engine_call req w arg) as [[n|e'] p'];
              [|done]. by eexists.
          - destruct (Api.split_engine_call req w arg) as [[n|e'] p'];
              [|done]. by eexists.
          - destruct (Api.compress_engine_call req w arg)
              as [[[n ratio]|e'] p']; [|done]. by eexists. }
        rewrite (handler_success_row _ _ _ _ _ Hgate Harg Houts).
        intros [= <-]. split; [done|]. left. simpl.
        split; [done|]. by exists outs.
    + pose proof (handler_keeps_rows ep req w i Hi) as ->. apply Hinv.
  - destruct ep; simpl in *;
      [ unfold Api.merge_pdfs, Api.merge_pdfs_try
      | unfold Api.split_pdf, Api.split_pdf_try
      | unfold Api.compress_pdf, Api.compress_pdf_try ];
      rewrite Hgate; simpl; apply Hinv.
Qed.








End MoreApiFacts.

Lemma missing_required_keys_reported_witness :
  Validators.validate_operation_params (PDict [("dpi", PInt 100)])
    ["file"; "x"]
  = Return (Validators.failure "Missing required parameters: file, x").
Proof.
  apply (missing_required_keys_reported [("dpi", PInt 100)] ["file"; "x"]).
  - discriminate.
  - discriminate.
Defined.

Lemma non_object_body_rejected_witness :
  ∃ msg,
    Validators.validate_operation_params (PList [PStr "files"]) ["files"]
    = Return (Validators.failure msg).
Proof.
  apply (non_object_body_rejected (PList [PStr "files"]) "files").
  - unfold field_keys. simpl. set_solver.
  - discriminate.
Defined.

Lemma upload_size_limits_witness :
  Validators.validate_pdf_file (Some tiny_unreadable_file)
  = Return (Validators.failure "File too small. Minimum size: 1024B").
Proof.
  apply (upload_size_limits tiny_unreadable_file "Scan.PDF" 200).
  - reflexivity.
  - reflexivity.
  - reflexivity.
  - reflexivity.
  - left. reflexivity.
Defined.

Lemma rejected_request_changes_nothing_witness :
  @handler demo_library Split no_file_request demo_world
  = (Api.Response 400
       [("error", PStr "Missing required parameters: file")], demo_world).
Proof.
  apply (@rejected_request_changes_nothing demo_library Split no_file_request
           demo_world
           (Validators.failure "Missing required parameters: file")).
  - reflexivity.
  - reflexivity.
  - reflexivity.
Defined.

Lemma engine_success_recorded_witness :
  let '(resp, w') := @handler demo_library Merge merge_request demo_world in
  Api.status_code resp = 200
  ∧ PyVal.dict_get (Api.body resp) "job_id" = Some (PInt 1)
  ∧ ∃ job,
      rows (Api.db w') !! 1 = Some job
      ∧ user_id job = 7
      ∧ operation job = "merge"
      ∧ input_files job = PList [PStr "a.pdf"; PStr "b.pdf"]
      ∧ status job = "completed"
      ∧ output_files job = Some ["merged_20240309_140500.pdf"]
      ∧ completed_at job = Some demo_now
      ∧ error_message job = None.
Proof.
  apply (@engine_success_recorded demo_library Merge merge_request demo_world
           (PList [PStr "a.pdf"; PStr "b.pdf"])
           ["merged_20240309_140500.pdf"]).
  - reflexivity.
  - reflexivity.
  - vm_compute. reflexivity.
Defined.

Lemma completed_job_status_witness :
  Api.get_job_status 1 (Api.Request 8 PNone demo_later)
    (@handler demo_library Merge merge_request demo_world).2
  = Api.Response 403 [("error", PStr "Unauthorized")].
Proof.
  apply (@completed_job_status demo_library Merge merge_request
           (Api.Request 8 PNone demo_later) demo_world
           (PList [PStr "a.pdf"; PStr "b.pdf"])
           ["merged_20240309_140500.pdf"]).
  - reflexivity.
  - reflexivity.
  - vm_compute. reflexivity.
Defined.

Lemma failed_job_status_witness :
  Api.get_job_status 1 (Api.Request 7 PNone demo_later)
    (@handler demo_library Merge missing_file_request demo_world).2
  = Api.Response 200
      [("job_id", PInt 1);
       ("operation", PStr "merge");
       ("status", PStr "failed");
       ("created_at", PStr "2024-03-09T14:05:00");
       ("error", PStr "File not found: gone.pdf")].
Proof.
  apply (@failed_job_status demo_library Merge missing_file_request
           (Api.Request 7 PNone demo_later) demo_world
           (PList [PStr "a.pdf"; PStr "gone.pdf"])
           (Exn FileNotFoundError "File not found: gone.pdf")).
  - reflexivity.
  - reflexivity.
  - vm_compute. reflexivity.
  - reflexivity.
Defined.

Lemma handlers_keep_jobs_settled_witness :
  job_settled
    (Job 1 7 "split" (PList [PStr "b.pdf"]) (Some []) "completed" None
       demo_now (Some demo_now)).
Proof.
  apply (@handlers_keep_jobs_settled demo_library Split split_beyond_request
           demo_world) with (i := 1).
  - intros i j Hj. vm_compute in Hj. discriminate Hj.
  - vm_compute. reflexivity.
Defined.


(** ** The conversion to images *)

Section ConverterFacts.
Context `{ImageLibrary}.
Import Converter.

Lemma convert_loop_outputs (pages : list page) (i : Z)
    (base ts fmt : string) (dpi : pyval) (images : gmap string image)
    (acc : list string) :
  (convert_loop pages i base ts (Str.upper fmt) (Str.lower fmt) dpi images
     acc).1
  = acc ++ ((λ k, image_name base k ts (Str.lower fmt))
            <$> saved_pages base ts fmt dpi i (Z.of_nat (length pages))).
Proof.
  revert i images acc. unfold saved_pages.
  induction pages as [|pg pages IH]; intros i images acc.
  - simpl. by rewrite app_nil_r.
  - cbn [convert_loop].
    rewrite (seqZ_cons i) by (simpl; lia).
    replace (Z.pred (Z.of_nat (length (pg :: pages))))
      with (Z.of_nat (length pages)) by (simpl; lia).
    replace (Z.succ i) with (i + 1) by lia. cbn [List.filter].
    destruct (save_error _ _ _).
    + apply IH.
    + rewrite IH, <- app_assoc. done.
Qed.

Lemma convert_loop_grows (pages : list page) (i : Z)
    (base ts uppered lowered : string) (dpi : pyval)
    (images : gmap string image) (acc : list string) :
  (length acc
   ≤ length
       (convert_loop pages i base ts uppered lowered dpi images acc).1)%nat.
Proof.
  revert i images acc.
  induction pages as [|pg pages IH]; intros i images acc; [done|].
  cbn [convert_loop].
  destruct (save_error (image_name base i ts lowered) uppered dpi).
  - apply IH.
  - etrans; [|apply IH]. rewrite length_app. simpl. lia.
Qed.

Lemma convert_loop_keeps (pages : list page) (i : Z)
    (base ts uppered lowered : string) (dpi : pyval)
    (images : gmap string image) (acc : list string) :
  (convert_loop pages i base ts uppered lowered dpi images acc).1 = acc →
  (convert_loop pages i base ts uppered lowered dpi images acc).2 = images.
Proof.
  revert i images acc.
  induction pages as [|pg pages IH]; intros i images acc; [done|].
  cbn [convert_loop].
  destruct (save_error (image_name base i ts lowered) uppered dpi).
  - apply IH.
  - intros Hout. apply (f_equal length) in Hout.
    pose proof (convert_loop_grows pages (i + 1) base ts uppered lowered dpi
                  (<[image_name base i ts lowered :=
                       Image 595 842 uppered dpi]> images)
                  (acc ++ [image_name base i ts lowered])) as Hle.
    rewrite Hout, length_app in Hle. simpl in Hle. lia.
Qed.

(** X18.  When [convert_to_images] returns, it returns at least one
    filename: the names, in ascending page order, of exactly the pages whose
    image could be saved, each with the lower-cased format as extension. *)
Theorem convert_returns_saved_pages (filename : string)
    (uploads : gmap string upload) (images images' : gmap string image)
    (format dpi : pyval) (now : datetime) (outputs : list string) :
  convert_to_images filename uploads images format dpi now
  = (inl outputs, images') →
  outputs ≠ []
  ∧ ∃ fmt,
      format = PStr fmt
      ∧ outputs
        = (λ i, image_name (OsPath.splitext_root filename) i (strftime now)
                  (Str.lower fmt))
          <$> saved_pages (OsPath.splitext_root filename) (strftime now) fmt
                dpi 0 (Z.of_nat (length (pages_of uploads filename))).
Proof.
  unfold convert_to_images, pages_of.
  destruct (uploads !! filename) as [[sz c]|]; [|done].
  destruct format as [| | | |fmt| |]; try done.
  destruct (negb _); [done|]. unfold PdfReader. simpl.
  destruct c as [pages|why]; [|done].
  pose proof (convert_loop_outputs pages 0 (OsPath.splitext_root filename)
                (strftime now) fmt dpi images []) as Hout.
  destruct (convert_loop _ _ _ _ _ _ _ _ _) as [outs im] eqn:Hloop.
  simpl in Hout. destruct outs as [|o outs]; [done|].
  intros [= <- <-]. split; [done|]. by exists fmt.
Qed.

(** X19.  When no page can be saved, and so too on a document without
    pages, [convert_to_images] raises [Exception('No pages could be
    converted to images')] and leaves no image behind. *)
Theorem convert_without_saved_page_fails (filename : string) (f : upload)
    (pages : list page) (uploads : gmap string upload)
    (images : gmap string image) (fmt : string) (dpi : pyval)
    (now : datetime) :
  uploads !! filename = Some f →
  up_content f = Parsed pages →
  Validators.member (Str.upper fmt) supported_formats = true →
  saved_pages (OsPath.splitext_root filename) (strftime now) fmt dpi 0
    (Z.of_nat (length pages)) = [] →
  convert_to_images filename uploads images (PStr fmt) dpi now
  = (inr (PlainException "No pages could be converted to images"), images).
Proof.
  intros Hf Hc Hfmt Hnone. unfold convert_to_images, PdfReader.
  rewrite Hf, Hfmt, Hc. cbn [negb].
  pose proof (convert_loop_outputs pages 0 (OsPath.splitext_root filename)
                (strftime now) fmt dpi images []) as Hout.
  rewrite Hnone in Hout. simpl in Hout.
  pose proof (convert_loop_keeps _ _ _ _ _ _ _ _ _ Hout) as Hkeep.
  destruct (convert_loop _ _ _ _ _ _ _ _ _) as [outs im].
  simpl in *. by subst.
Qed.


End ConverterFacts.

(** ** Storing an upload *)

Section ExtensionFacts.
Import FileHandler.

Lemma chars_map_string (f : ascii → ascii) (s : string) :
  list_ascii_of_string (Str.map_string f s) = f <$> list_ascii_of_string s.
Proof. induction s as [|c s IH]; simpl; [done|by rewrite IH]. Qed.

Lemma ends_with_list_spec (suffix l : list ascii) :
  Str.ends_with_list suffix l = true ↔ ∃ pre, l = pre ++ suffix.
Proof.
  induction l as [|c l IH]; simpl.
  - destruct (decide ([] = suffix)) as [<-|Hne].
    + split; [|done]. intros _. by exists [].
    + split; [done|]. intros [pre Heq]. symmetry in Heq.
      apply app_eq_nil in Heq as [_ ->]. done.
  - destruct (decide (c :: l = suffix)) as [<-|Hne].
    + split; [|done]. intros _. by exists [].
    + rewrite IH. split.
      * intros [pre ->]. by exists (c :: pre).
      * intros [[|c' pre] Heq]; simplify_eq/=. by exists pre.
Qed.

Lemma contains_dot_spec (s : string) :
  Str.contains "." s = true ↔ OsPath.dot ∈ list_ascii_of_string s.
Proof.
  unfold Str.contains.
  induction s as [|c s IH].
  - simpl. split; [done|]. by intros ?%elem_of_nil.
  - cbn [String.length Str.contains_from String.prefix list_ascii_of_string].
    destruct (ascii_dec "." c) as [<-|Hne].
    + assert (String.prefix "" s = true) as -> by (by destruct s).
      split; [|done]. intros _. by left.
    + rewrite IH. split.
      * intros Hin. by right.
      * intros [Heq|Hin]%elem_of_cons; [|done]. by destruct Hne.
Qed.

Lemma rfind_from_absent (c : ascii) (l : list ascii) (i last : Z) :
  c ∉ l → OsPath.rfind_from c l i last = last.
Proof.
  revert i last. induction l as [|x l IH]; intros i last Hc; simpl; [done|].
  apply not_elem_of_cons in Hc as [Hne Hc].
  rewrite IH by done. by destruct (decide (x = c)).
Qed.

Lemma rfind_from_last (c : ascii) (pre t : list ascii) (i last : Z) :
  c ∉ t →
  OsPath.rfind_from c (pre ++ c :: t) i last = i + Z.of_nat (length pre).
Proof.
  intros Hc. revert i last.
  induction pre as [|x pre IH]; intros i last; simpl.
  - rewrite rfind_from_absent by done.
    destruct (decide (c = c)); [lia|done].
  - rewrite IH. lia.
Qed.

Lemma lower_ascii_dot (c : ascii) :
  Str.lower_ascii c = OsPath.dot → c = OsPath.dot.
Proof.
  destruct c as [[|] [|] [|] [|] [|] [|] [|] [|]]; vm_compute;
    congruence.
Qed.

Lemma lower_keeps_dots_out (t : list ascii) :
  OsPath.dot ∉ t → OsPath.dot ∉ Str.lower_ascii <$> t.
Proof.
  intros Hc (c & Heq & Hin)%list_elem_of_fmap.
  symmetry in Heq. apply lower_ascii_dot in Heq. by subst c.
Qed.

Lemma last_occurrence_unique (c : ascii) (a a' t t' : list ascii) :
  c ∉ t → c ∉ t' → a ++ c :: t = a' ++ c :: t' → t = t'.
Proof.
  intros Ht Ht'. revert a'.
  induction a as [|x a IH]; intros [|x' a'] Heq; simplify_eq/=.
  - done.
  - destruct Ht. apply elem_of_app. right. by left.
  - destruct Ht'. apply elem_of_app. right. by left.
  - by eapply IH.
Qed.

Lemma chars_inj (a b : string) :
  list_ascii_of_string a = list_ascii_of_string b → a = b.
Proof.
  intros Heq. apply (f_equal string_of_list_ascii) in Heq.
  by rewrite !string_of_list_ascii_of_string in Heq.
Qed.

(** The extension test of [allowed_file] is the one of the validator. *)
Lemma allowed_file_endswith (s : string) :
  allowed_file s = Str.endswith (Str.lower s) ".pdf".
Proof.
  unfold allowed_file, Str.endswith, Str.lower.
  rewrite chars_map_string.
  destruct (Str.contains "." s) eqn:Hdot; cbn [andb].
  - apply contains_dot_spec in Hdot.
    apply list_elem_of_split_r in Hdot as (pre & t & Hl & Ht).
    unfold after_last_dot, OsPath.rfind. rewrite Hl.
    rewrite rfind_from_last by done.
    replace (Z.to_nat (0 + Z.of_nat (length pre) + 1))
      with (length (pre ++ [OsPath.dot])) by (rewrite length_app; simpl; lia).
    rewrite (cons_middle OsPath.dot pre t), app_assoc, drop_app_length.
    unfold Validators.member, ALLOWED_EXTENSIONS. cbn [existsb].
    rewrite orb_false_r.
    destruct (String.eqb_spec
                (Str.map_string Str.lower_ascii (string_of_list_ascii t))
                "pdf") as [Heq|Hne].
    + symmetry. apply ends_with_list_spec.
      exists (Str.lower_ascii <$> pre).
      rewrite <- app_assoc, fmap_app. f_equal. cbn [fmap list_fmap app].
      apply (f_equal list_ascii_of_string) in Heq.
      rewrite chars_map_string, list_ascii_of_string_of_list_ascii in Heq.
      change (Str.lower_ascii OsPath.dot) with OsPath.dot.
      by rewrite Heq.
    + symmetry. apply not_true_is_false. intros [pre' Heq]%ends_with_list_spec.
      apply Hne. apply chars_inj.
      rewrite chars_map_string, list_ascii_of_string_of_list_ascii.
      rewrite <- app_assoc, fmap_app in Heq. cbn [fmap list_fmap app] in Heq.
      change (Str.lower_ascii OsPath.dot) with OsPath.dot in Heq.
      change (list_ascii_of_string ".pdf")
        with (OsPath.dot :: list_ascii_of_string "pdf") in Heq.
      apply (last_occurrence_unique OsPath.dot) in Heq.
      * exact Heq.
      * by apply lower_keeps_dots_out.
      * vm_compute. intros Hin. repeat (apply elem_of_cons in Hin as [?|Hin];
          [discriminate|]). by apply elem_of_nil in Hin.
  - symmetry. apply not_true_is_false. intros [pre Heq]%ends_with_list_spec.
    assert (OsPath.dot ∈ Str.lower_ascii <$> list_ascii_of_string s) as Hin.
    { rewrite Heq. apply elem_of_app. right. by left. }
    apply list_elem_of_fmap in Hin as (c & Hc & Hin).
    symmetry in Hc. apply lower_ascii_dot in Hc. subst c.
    apply contains_dot_spec in Hin. congruence.
Qed.

(** X21.  [allowed_file] and the extension test of [validate_pdf_file]
    accept the same filenames: a name has a dot and [pdf], in any letter
    case, after its last dot exactly when its lower-cased form ends in
    [.pdf]. *)
Theorem allowed_file_iff_pdf_suffix (s : string) :
  allowed_file s = true ↔ Str.endswith (Str.lower s) ".pdf" = true.
Proof. by rewrite allowed_file_endswith. Qed.

End ExtensionFacts.

Section UploadFacts.
Context `{WebLibrary}.
Import FileHandler.


(** X23.  An upload that the validator accepts is stored under the root of
    its secured name, the stamp of the request and its extension; the
    answer carries that name and the validated size, and the stored file is
    a valid input of the engine with the pages the validator counted. *)
Theorem accepted_upload_is_stored (req : Upload.request) (w : Api.world)
    (file : Validators.file_object) (s : string) (n : Z) (pg : page)
    (pages : list page) :
  let parts := splitext (secure_filename s) in
  let stored := parts.1 +:+ "_" +:+ strftime (Upload.now req) +:+ parts.2 in
  let uploads' :=
    <[stored := Upload n (Parsed (pg :: pages))]> (Api.uploads w) in
  Upload.file_part req = Some file →
  Validators.fo_truthy file = true →
  Validators.fo_filename file = Return (PStr s) →
  Str.endswith (Str.lower s) ".pdf" = true →
  Validators.fo_tell file = Return n →
  Validators.MIN_FILE_SIZE ≤ n ≤ Validators.MAX_FILE_SIZE →
  Validators.fo_read file = Return (Parsed (pg :: pages)) →
  Upload.upload_file req w
  = (Api.Response 200
       [("message", PStr "File uploaded successfully");
        ("filename", PStr stored);
        ("size", PInt n)],
     Api.World uploads' (Api.processed w) (Api.db w))
  ∧ valid_input uploads' stored
  ∧ pages_of uploads' stored = pg :: pages.
Proof.
  intros parts stored uploads' Hfile Ht Hf Hend Hn Hsize Hr.
  split; [|split].
  - unfold Upload.upload_file, Upload.upload_file_try.
    rewrite Hfile, Hf.
    assert (PyVal.is_str "" (PStr s) = false) as ->.
    { pose proof (pdf_name_not_empty s Hend) as Hs. simpl in *.
      by apply negb_true_iff in Hs. }
    rewrite (accepted_upload_validates file s n pg pages Ht Hf Hend Hn
               Hsize Hr).
    cbn [Validators.valid Validators.success_file negb Validators.size].
    unfold save_uploaded_file.
    rewrite Hf, allowed_file_endswith, Hend, Hn, Hr. cbn [negb].
    fold parts. by destruct parts.
  - exists (Upload n (Parsed (pg :: pages))), (pg :: pages).
    unfold uploads'. by rewrite lookup_insert_eq.
  - unfold pages_of, uploads'. by rewrite lookup_insert_eq.
Qed.

End UploadFacts.


Lemma accepted_upload_is_stored_witness :
  let stored := "MyReport_20240309_140500.PDF" in
  let uploads' :=
    <[stored := Upload 2048 (Parsed [PageObj "r1"; PageObj "r2"])]>
      demo_uploads in
  @Upload.upload_file demo_web (Upload.Request (Some report_file) demo_now)
    demo_world
  = (Api.Response 200
       [("message", PStr "File uploaded successfully");
        ("filename", PStr stored);
        ("size", PInt 2048)],
     Api.World uploads' ∅ (Database ∅ 1))
  ∧ valid_input uploads' stored
  ∧ pages_of uploads' stored = [PageObj "r1"; PageObj "r2"].
Proof.
  apply (@accepted_upload_is_stored demo_web
           (Upload.Request (Some report_file) demo_now) demo_world
           report_file "My Report.PDF" 2048 (PageObj "r1") [PageObj "r2"]).
  - reflexivity.
  - reflexivity.
  - reflexivity.
  - reflexivity.
  - reflexivity.
  - vm_compute. split; congruence.
  - reflexivity.
Defined.

(** ** The sweep of old files *)

Section CleanupFacts.
Import Cleanup.










End CleanupFacts.

Lemma convert_returns_saved_pages_witness :
  ["b_page_1_20240309_140500.png"; "b_page_2_20240309_140500.png"] ≠ []
  ∧ ∃ fmt,
      PStr "Png" = PStr fmt
      ∧ ["b_page_1_20240309_140500.png"; "b_page_2_20240309_140500.png"]
        = (λ i, Converter.image_name "b" i "20240309_140500" (Str.lower fmt))
          <$> @saved_pages demo_images "b" "20240309_140500" fmt (PInt 150) 0
                2.
Proof.
  eapply (@convert_returns_saved_pages demo_images "b.pdf" demo_uploads ∅ _
            (PStr "Png") (PInt 150) demo_now).
  vm_compute. reflexivity.
Defined.

Lemma convert_without_saved_page_fails_witness :
  @Converter.convert_to_images demo_images "b.pdf" demo_uploads ∅
    (PStr "jpeg") (PStr "high") demo_now
  = (inr (PlainException "No pages could be converted to images"), ∅).
Proof.
  apply (@convert_without_saved_page_fails demo_images "b.pdf"
           (Upload 1500 (Parsed [PageObj "b1"; PageObj "b2"]))
           [PageObj "b1"; PageObj "b2"]).
  - vm_compute. reflexivity.
  - reflexivity.
  - reflexivity.
  - vm_compute. reflexivity.
Defined.




Example cleanup_runs :
  (Cleanup.cleanup_old_files ["uploads"; "processed"] (PInt 1) demo_fs
     10000%float).1 = Return 2
  ∧ swept_total 6400%float demo_fs ["uploads"; "processed"] = 2.
Proof. vm_compute. split; reflexivity. Qed.

(** ** Further properties of single calls *)

Section SingleCallFacts.
Context `{PdfLibrary}.
Import PDFProcessor Validators ParamSpec.





Lemma dict_get_other (k k' : string) (v : pyval)
    (kv : list (string * pyval)) :
  k ≠ k' → PyVal.dict_get ((k, v) :: kv) k' = PyVal.dict_get kv k'.
Proof. intros Hne. simpl. by destruct (String.eqb_spec k k'). Qed.

Lemma offends_other (k : string) (v : pyval) (kv : list (string * pyval))
    (f : field) :
  k ∉ field_keys → offends ((k, v) :: kv) f = offends kv f.
Proof.
  intros Hk. unfold offends. rewrite dict_get_other; [done|].
  intros ->. apply Hk. unfold field_keys.
  apply list_elem_of_fmap_2. destruct f; unfold check_order; set_solver.
Qed.

(** X28.  Parameters the validator does not know are ignored: adding a key
    that is neither one of the six fields nor required to a non-empty
    mapping changes nothing to whether the mapping is accepted. *)
Theorem unknown_parameter_ignored (k : string) (v : pyval)
    (kv : list (string * pyval)) (required : list string) :
  kv ≠ [] →
  k ∉ field_keys →
  k ∉ required →
  validate_operation_params (PDict ((k, v) :: kv)) required
  = Return (success_data (PDict ((k, v) :: kv)))
  ↔ validate_operation_params (PDict kv) required
    = Return (success_data (PDict kv)).
Proof.
  intros Hne Hk Hreq.
  assert (first_offending ((k, v) :: kv) = first_offending kv) as Hfirst.
  { unfold first_offending, check_order. simpl.
    by rewrite !offends_other. }
  assert (Forall (λ k', is_Some (PyVal.dict_get ((k, v) :: kv) k')) required
          ↔ Forall (λ k', is_Some (PyVal.dict_get kv k')) required) as Hpres.
  { rewrite !Forall_forall. split; intros Hall k' Hin.
    - rewrite <- (dict_get_other k k' v); [by apply Hall|]. by intros ->.
    - rewrite dict_get_other; [by apply Hall|]. by intros ->. }
  split; intros Hrun.
  - destruct (accepted_mapping_inv _ _ _ Hrun eq_refl) as (_ & Hall & Hnone).
    apply validation_accepts; [done|by apply Hpres|by rewrite <- Hfirst].
  - destruct (accepted_mapping_inv _ _ _ Hrun eq_refl) as (_ & Hall & Hnone).
    apply validation_accepts; [done|by apply Hpres|by rewrite Hfirst].
Qed.

End SingleCallFacts.



Lemma unknown_parameter_ignored_witness :
  Validators.validate_operation_params
    (PDict [("note", PInt 1); ("file", PStr "a.pdf")]) ["file"]
  = Return (Validators.success_data
              (PDict [("note", PInt 1); ("file", PStr "a.pdf")]))
  ↔ Validators.validate_operation_params (PDict [("file", PStr "a.pdf")])
      ["file"]
    = Return (Validators.success_data (PDict [("file", PStr "a.pdf")])).
Proof.
  apply (unknown_parameter_ignored "note" (PInt 1) [("file", PStr "a.pdf")]
           ["file"]).
  - discriminate.
  - unfold field_keys. simpl. intros Hin.
    repeat (apply elem_of_cons in Hin as [?|Hin]; [discriminate|]).
    by apply elem_of_nil in Hin.
  - intros Hin%list_elem_of_singleton. discriminate Hin.
Defined.
